(** * OpenIdMetadata: the cached OpenID key resolver

    A shallow embedding of [src/apis/OpenIdMetadata.ts] and the properties
    of its cache, refresh protocol, key lookup and issuer template.

    Conventions of the embedding.
    - A JavaScript value that may be [undefined] is an [option]; a string
      is a [string] (a sequence of code units, here bytes).
    - Times and HTTP status codes are integers, modelled in [Z].
    - The object's fields live in the record [OpenIdMetadata]; the outside
      (clock, network, console) lives in [World].  Methods that touch them
      are written in the state monad [M].
    - [request] is asynchronous in the source.  A call of [getKey] is
      modelled as one sequential run: each [request] is answered before the
      continuation runs, which is the order in which the callbacks fire.
    - [rsa-pem-from-mod-exp] and [base64url] are npm packages, not part of
      the repository: [getPem] and [toBase64] are parameters of the
      development. *)

From Stdlib Require Import ZArith List String Ascii Bool Lia DecimalString.
Import ListNotations.

Local Open Scope string_scope.
Local Open Scope Z_scope.

(** ** JavaScript strings *)

Module JS.

(** [ToBoolean] of a string that may be [undefined]: [undefined] and the
    empty string are falsy. *)
Definition truthy (v : option string) : bool :=
  match v with
  | None => false
  | Some s => negb (s =? "")%string
  end.

(** [v === s] for a string [s]. *)
Definition strict_eq (v : option string) (s : string) : bool :=
  match v with
  | None => false
  | Some s' => (s' =? s)%string
  end.

(** [ToString] of an integral Number. *)
Definition Number_toString (z : Z) : string :=
  NilZero.string_of_int (Z.to_int z).

(** [s.indexOf(searchString)]: the least position at which [searchString]
    occurs in [s]. *)
Fixpoint indexOf (searchString s : string) : option nat :=
  if prefix searchString s then Some 0%nat
  else match s with
       | EmptyString => None
       | String _ s' => option_map S (indexOf searchString s')
       end.

(** The part of [s] from position [from] to its end. *)
Definition tail_from (from : nat) (s : string) : string :=
  substring from (String.length s - from) s.

(** [GetSubstitution(matched, str, position, captures, replacement)] of
    ECMA-262 for an empty list of captures: [$$] is a dollar sign, [$&] the
    matched text, [$`] the text before the match, [$'] the text after it;
    any other character, a dollar sign included, stands for itself. *)
Fixpoint GetSubstitution (matched str : string) (position : nat)
         (replacement : string) : string :=
  match replacement with
  | EmptyString => EmptyString
  | String c r =>
      if (c =? "$")%char then
        match r with
        | EmptyString => String c EmptyString
        | String d r' =>
            if (d =? "$")%char then
              String "$" (GetSubstitution matched str position r')
            else if (d =? "&")%char then
              matched ++ GetSubstitution matched str position r'
            else if (d =? "`")%char then
              substring 0 position str
                ++ GetSubstitution matched str position r'
            else if (d =? "'")%char then
              tail_from (position + String.length matched) str
                ++ GetSubstitution matched str position r'
            else String c (GetSubstitution matched str position r)
        end
      else String c (GetSubstitution matched str position r)
  end.

(** [s.replace(searchValue, replaceValue)] where both arguments are
    strings: only the first occurrence of [searchValue] is replaced, by the
    expansion of [replaceValue]. *)
Definition replace (s searchValue replaceValue : string) : string :=
  match indexOf searchValue s with
  | None => s
  | Some pos =>
      substring 0 pos s
        ++ GetSubstitution searchValue s pos replaceValue
        ++ tail_from (pos + String.length searchValue) s
  end.

(** The characters of [s] are all different from the dollar sign. *)
Fixpoint dollar_free (s : string) : bool :=
  match s with
  | EmptyString => true
  | String c r => negb (c =? "$")%char && dollar_free r
  end.

End JS.

(** ** Errors *)

Module Error.

Record t : Type := mk { name : string; message : string }.

(** [Error.prototype.toString]. *)
Definition toString (e : t) : string :=
  if (name e =? "")%string then message e
  else if (message e =? "")%string then name e
  else name e ++ ": " ++ message e.

End Error.

(** [new Error(message)]. *)
Definition new_Error (message : string) : Error.t :=
  Error.mk "Error" message.

(** ** The data model: interfaces of the source *)

(** [interface IKey]: a record of the JWKS.  A property that the JSON
    object does not have reads as [undefined], hence the options. *)
Module IKey.

Record t : Type := mk {
  kty : option string;
  use : option string;
  kid : option string;
  x5t : option string;
  n : option string;
  e : option string;
  x5c : option (list string);
  endorsements : option (list string)
}.

End IKey.

(** [interface IOpenIdMetadataKey]: what [getKey] hands to its callback. *)
Module IOpenIdMetadataKey.

Record t : Type := mk {
  key : string;
  endorsements : option (list string)
}.

End IOpenIdMetadataKey.

(** A truthy response body, seen through the properties the source reads:
    [issuer] and [jwks_uri] ([interface IOpenIdConfig]) and [keys]. *)
Module Body.

Record t : Type := mk {
  issuer : option string;
  jwks_uri : option string;
  keys : option (list IKey.t)
}.

End Body.

(** What the callback of [request] receives: [err] alone, or a response
    with its [statusCode] and a [body] ([None] when the body is falsy). *)
Inductive Reply : Type :=
| Failed (err : Error.t)
| Answered (statusCode : Z) (body : option Body.t).

(** ** The object and the world around it *)

(** [class OpenIdMetadata]: its four private fields. *)
Record OpenIdMetadata : Type := mkOpenIdMetadata {
  url : string;
  lastUpdated : Z;
  keys : option (list IKey.t);
  issuer : option string
}.

(** [constructor(url)]: [lastUpdated = 0], [keys] and [issuer] unset. *)
Definition constructor (url : string) : OpenIdMetadata :=
  mkOpenIdMetadata url 0 None None.

(** The environment of a run.  [clock k] is the value of the [k]-th
    [new Date().getTime()] and [ticks] counts the readings taken;
    [network k u] is the reply to the [k]-th request when it asks for [u];
    [requests] lists the urls asked for, oldest first; [console] holds the
    lines written by [console.error]. *)
Record World : Type := mkWorld {
  clock : nat -> Z;
  ticks : nat;
  network : nat -> option string -> Reply;
  requests : list (option string);
  console : list string
}.

Record Sys : Type := mkSys { this : OpenIdMetadata; world : World }.

(** ** The state monad of the methods *)

Definition M (A : Type) : Type := Sys -> A * Sys.

Definition ret {A : Type} (a : A) : M A := fun s => (a, s).

Definition bind {A B : Type} (m : M A) (k : A -> M B) : M B :=
  fun s => let (a, s') := m s in k a s'.

Notation "x <- m ;; k" := (bind m (fun x => k))
  (at level 61, m at next level, right associativity).
Notation "m ;;; k" := (bind m (fun _ => k))
  (at level 61, right associativity).

Definition get_this : M OpenIdMetadata := fun s => (this s, s).

Definition modify_this (f : OpenIdMetadata -> OpenIdMetadata) : M unit :=
  fun s => (tt, mkSys (f (this s)) (world s)).

Definition set_lastUpdated (v : Z) : M unit :=
  modify_this (fun o => mkOpenIdMetadata (url o) v (keys o) (issuer o)).

Definition set_keys (v : option (list IKey.t)) : M unit :=
  modify_this (fun o => mkOpenIdMetadata (url o) (lastUpdated o) v (issuer o)).

Definition set_issuer (v : option string) : M unit :=
  modify_this (fun o => mkOpenIdMetadata (url o) (lastUpdated o) (keys o) v).

(** The three ways in which a run acts on the world. *)
Definition tick (w : World) : World :=
  mkWorld (clock w) (S (ticks w)) (network w) (requests w) (console w).

Definition sent (u : option string) (w : World) : World :=
  mkWorld (clock w) (ticks w) (network w) (requests w ++ [u])%list
          (console w).

Definition logged (line : string) (w : World) : World :=
  mkWorld (clock w) (ticks w) (network w) (requests w)
          (console w ++ [line])%list.

(** [new Date().getTime()]. *)
Definition Date_getTime : M Z :=
  fun s => (clock (world s) (ticks (world s)), mkSys (this s) (tick (world s))).

(** [request({method: "GET", url: u, json: true}, callback)]: the reply
    that the callback receives. *)
Definition request (u : option string) : M Reply :=
  fun s =>
    (network (world s) (List.length (requests (world s))) u,
     mkSys (this s) (sent u (world s))).

(** [console.error(line)]. *)
Definition console_error (line : string) : M unit :=
  fun s => (tt, mkSys (this s) (logged line (world s))).

(** ** The methods *)

(** The error thrown by [getIssuer]. *)
Definition NotConfigured : Error.t :=
  new_Error "Configuration has not yet been fetched. Call getKey() first to ensure that the configuration is up to date.".

(** [getIssuer(tenantId)]: [inl] is a thrown error, [inr] the returned
    string.  [!this.issuer] holds when the issuer is [undefined] and when
    it is the empty string. *)
Definition getIssuer (o : OpenIdMetadata) (tenantId : string)
  : Error.t + string :=
  match issuer o with
  | None => inl NotConfigured
  | Some template =>
      if JS.truthy (Some template)
      then inr (JS.replace template "{tenantid}" tenantId)
      else inl NotConfigured
  end.

(** The value of [err] after the check of status and body that opens both
    request callbacks; [what] is the text of the error message. *)
Definition checked (what : string) (r : Reply) : Error.t + Body.t :=
  match r with
  | Failed err => inl err
  | Answered statusCode None =>
      inl (new_Error (what ++ JS.Number_toString statusCode))
  | Answered statusCode (Some body) =>
      if statusCode >=? 400
      then inl (new_Error (what ++ JS.Number_toString statusCode))
      else inr body
  end.

(** [refreshCache(cb)]: the result is the argument given to [cb]. *)
Definition refreshCache : M (option Error.t) :=
  self <- get_this ;;
  r1 <- request (Some (url self)) ;;
  match checked "Failed to load openID config: " r1 with
  | inl err => ret (Some err)
  | inr openIdConfig =>
      set_issuer (Body.issuer openIdConfig) ;;;
      r2 <- request (Body.jwks_uri openIdConfig) ;;
      match checked "Failed to load Keys: " r2 with
      | inl err => ret (Some err)
      | inr body =>
          now <- Date_getTime ;;
          set_lastUpdated now ;;;
          set_keys (Body.keys body) ;;;
          ret None
      end
  end.

Section Packages.

(** [base64url.toBase64] and [getPem] of [rsa-pem-from-mod-exp]. *)
Variable toBase64 : string -> string.
Variable getPem : string -> string -> string.

(** The loop of [findKey] over [this.keys], from the first record on.
    [!key.n || !key.e] holds when one of the two is [undefined] or the
    empty string. *)
Fixpoint findKey_loop (ks : list IKey.t) (keyId : string)
  : option IOpenIdMetadataKey.t :=
  match ks with
  | [] => None
  | key :: rest =>
      if JS.strict_eq (IKey.kid key) keyId then
        match IKey.n key, IKey.e key with
        | Some n, Some e =>
            if negb (JS.truthy (Some n)) || negb (JS.truthy (Some e))
            then None
            else
              let modulus := toBase64 n in
              let exponent := e in
              Some (IOpenIdMetadataKey.mk (getPem modulus exponent)
                                          (IKey.endorsements key))
        | _, _ => None
        end
      else findKey_loop rest keyId
  end.

(** [findKey(keyId)]. *)
Definition findKey (o : OpenIdMetadata) (keyId : string)
  : option IOpenIdMetadataKey.t :=
  match keys o with
  | None => None
  | Some ks => findKey_loop ks keyId
  end.

(** [getKey(keyId, cb)]: the result is the argument given to [cb]. *)
Definition getKey (keyId : string) : M (option IOpenIdMetadataKey.t) :=
  now <- Date_getTime ;;
  self <- get_this ;;
  if lastUpdated self <? now - 1000 * 60 * 60 * 24 * 5 then
    err <- refreshCache ;;
    match err with
    | Some e =>
        console_error ("Error retrieving OpenId metadata at " ++ url self
                         ++ ", error: " ++ Error.toString e)
    | None => ret tt
    end ;;;
    self' <- get_this ;;
    ret (findKey self' keyId)
  else
    ret (findKey self keyId).

End Packages.

(** ** Vocabulary of the properties *)

(** The replies that the two hops of a refresh started in [s] receive:
    hop 1 is the first request from [s], for the discovery url; hop 2 is
    the next one, for the [jwks_uri] of the discovery document. *)
Definition hop1 (s : Sys) : Reply :=
  network (world s) (List.length (requests (world s))) (Some (url (this s))).

Definition hop2 (s : Sys) (openIdConfig : Body.t) : Reply :=
  network (world s) (S (List.length (requests (world s))))
          (Body.jwks_uri openIdConfig).

(** A hop fails on a transport error, a status of 400 or more, or an empty
    body; it succeeds with [body] otherwise. *)
Definition hop_fails (r : Reply) : Prop :=
  match r with
  | Failed _ => True
  | Answered statusCode body => 400 <= statusCode \/ body = None
  end.

Definition hop_succeeds (r : Reply) (body : Body.t) : Prop :=
  exists statusCode, r = Answered statusCode (Some body) /\ statusCode < 400.

(** A refresh started in [s] fails when one of its two hops does. *)
Definition refresh_fails (s : Sys) : Prop :=
  hop_fails (hop1 s)
  \/ exists openIdConfig,
       hop_succeeds (hop1 s) openIdConfig /\ hop_fails (hop2 s openIdConfig).

(** A clock that never runs backwards. *)
Definition monotone (clock : nat -> Z) : Prop :=
  forall i j, (i <= j)%nat -> clock i <= clock j.

(** The line that [getKey] writes when the refresh reports [err]. *)
Definition refresh_error_line (o : OpenIdMetadata) (err : Error.t) : string :=
  "Error retrieving OpenId metadata at " ++ url o ++ ", error: "
    ++ Error.toString err.

(** The substitution in the words of the specification: the placeholder is
    replaced by the tenant identifier as it is, at its first occurrence. *)
Definition substitute_placeholder (template tenantId : string) : string :=
  match JS.indexOf "{tenantid}" template with
  | None => template
  | Some pos =>
      substring 0 pos template ++ tenantId
        ++ JS.tail_from (pos + String.length "{tenantid}") template
  end.

(** ** Concrete scenarios

    The scenario of the specification: a discovery document with issuer
    [https://login/{tenantid}/v2] and a key set with one RSA key [abc],
    here followed by an elliptic-curve key [ec1] without [n] and [e]. *)
Module Scenario.

Definition discoveryURL : string := "https://login/.well-known/openid-configuration".

Definition openIdConfig : Body.t :=
  Body.mk (Some "https://login/{tenantid}/v2") (Some "https://login/keys") None.

Definition rsaKey : IKey.t :=
  IKey.mk (Some "RSA") (Some "sig") (Some "abc") None
          (Some "sXchDaQebHnPiGvyDOAT4saGEUetSyo9MKLOoWFsueri23bOdgWp4Dy1Wl") (Some "AQAB")
          None None.

Definition ecKey : IKey.t :=
  IKey.mk (Some "EC") (Some "sig") (Some "ec1") None None None None None.

Definition jwks : Body.t := Body.mk None None (Some [rsaKey; ecKey]).

(** A discovery document whose issuer is the empty string. *)
Definition emptyIssuerConfig : Body.t :=
  Body.mk (Some "") (Some "https://login/keys") None.

(** Networks: both hops answer; hop 2 is refused; hop 1 is refused; hop 1
    answers with the empty issuer and hop 2 is refused. *)
Definition online (k : nat) (u : option string) : Reply :=
  match k with
  | O => Answered 200 (Some openIdConfig)
  | _ => Answered 200 (Some jwks)
  end.

Definition keysDown (k : nat) (u : option string) : Reply :=
  match k with
  | O => Answered 200 (Some openIdConfig)
  | _ => Answered 503 None
  end.

Definition offline (k : nat) (u : option string) : Reply :=
  Failed (Error.mk "Error" "connect ECONNREFUSED").

Definition emptyIssuerKeysDown (k : nat) (u : option string) : Reply :=
  match k with
  | O => Answered 200 (Some emptyIssuerConfig)
  | _ => Answered 503 None
  end.

(** Both hops answer, the discovery document with the empty issuer. *)
Definition emptyIssuerOnline (k : nat) (u : option string) : Reply :=
  match k with
  | O => Answered 200 (Some emptyIssuerConfig)
  | _ => Answered 200 (Some jwks)
  end.

(** A clock that starts at [t0] and gains a millisecond per reading. *)
Definition clockFrom (t0 : Z) (k : nat) : Z := t0 + Z.of_nat k.

Definition startOfDay : Z := 1500000000000.

Definition worldOf (net : nat -> option string -> Reply) : World :=
  mkWorld (clockFrom startOfDay) 0 net [] [].

(** A new object in each of the four networks. *)
Definition fresh (net : nat -> option string -> Reply) : Sys :=
  mkSys (constructor discoveryURL) (worldOf net).

(** An object whose cache was filled at [startOfDay]. *)
Definition loaded : OpenIdMetadata :=
  mkOpenIdMetadata discoveryURL startOfDay (Some [rsaKey; ecKey])
                   (Some "https://login/{tenantid}/v2").

(** The loaded object when the clock reads [now], with the network down. *)
Definition loadedAt (now : Z) : Sys :=
  mkSys loaded (mkWorld (clockFrom now) 0 offline [] []).

(** An object whose issuer template names the tenant twice. *)
Definition twoPlaceholders : OpenIdMetadata :=
  mkOpenIdMetadata discoveryURL startOfDay (Some [rsaKey; ecKey])
                   (Some "https://{tenantid}.login/{tenantid}/v2").

(** Stand-ins for the two packages. *)
Definition toBase64 (s : string) : string := s.

Definition getPem (modulus exponent : string) : string :=
  "-----BEGIN RSA PUBLIC KEY-----" ++ modulus ++ exponent
    ++ "-----END RSA PUBLIC KEY-----".

End Scenario.

(** ** Further vocabulary *)

(** The cache of [s] is older than five days at the next reading of the
    clock: the test that opens [getKey]. *)
Definition stale (s : Sys) : Prop :=
  lastUpdated (this s)
    < clock (world s) (ticks (world s)) - 1000 * 60 * 60 * 24 * 5.

(** [k] is the first record of [ks] whose [kid] is [keyId]. *)
Definition first_with_kid (ks : list IKey.t) (keyId : string) (k : IKey.t)
  : Prop :=
  exists pre post,
    ks = (pre ++ k :: post)%list
    /\ (forall k', In k' pre -> IKey.kid k' <> Some keyId)
    /\ IKey.kid k = Some keyId.

(** Two records agree on the four properties named [kid], [n], [e] and
    [endorsements]. *)
Definition same_material (k k' : IKey.t) : Prop :=
  IKey.kid k = IKey.kid k'
  /\ IKey.n k = IKey.n k'
  /\ IKey.e k = IKey.e k'
  /\ IKey.endorsements k = IKey.endorsements k'.

(** [searchString] occurs somewhere in [s]. *)
Definition occurs (searchString s : string) : Prop :=
  exists a b, s = (a ++ searchString ++ b)%string.

(** ** The profile dialog: [src/dialogs/HuddleDialog.ts]

    [request.get] of [request-promise] and [CardFactory.thumbnailCard] of
    [botbuilder] are packages: both are parameters.  An [async] method is
    modelled by the outcome of the promise it returns. *)
Module HuddleDialog.

Definition HUDDLE_DIALOG : string := "HuddleDialog".

Definition meProfileUrl : string := "https://ipd.ngrok.io/api/v3/users".

(** [get displayName()]. *)
Definition displayName : string := "Huddle".

(** The options object given to [request.get]. *)
Record Options : Type := mkOptions {
  url : string;
  json : bool;
  headers : list (string * string)
}.

(** The body of the provider's answer, seen through [profile.user.name]:
    [user] is [None] when [profile.user] is [undefined] or [null]. *)
Record User : Type := mkUser { user_name : option string }.

Record ProviderProfile : Type := mkProviderProfile { user : option User }.

(** Why a promise is rejected: the rejection of [request.get], or the
    [TypeError] of reading a property of [undefined]. *)
Inductive Reason : Type :=
| RequestRejected (err : Error.t)
| TypeError.

Inductive Promise (A : Type) : Type :=
| Rejected (reason : Reason)
| Resolved (value : A).

Arguments Rejected {A} reason.
Arguments Resolved {A} value.

(** The object that [getProfileFromProvider] returns. *)
Record Profile : Type := mkProfile {
  name : option string;
  email : string;
  photo : string
}.

(** The arguments of [CardFactory.thumbnailCard]. *)
Record CardImage : Type := mkCardImage { image_url : string }.

Record CardOther : Type := mkCardOther { subtitle : string }.

Section Packages.

(** [request.get]: its argument is the options object, its result the
    parsed body ([None] when there is none). *)
Variable get : Options -> Promise (option ProviderProfile).

Variable Attachment : Type.
Variable CardAction : Type.
Variable thumbnailCard :
  option string -> list CardImage -> list CardAction -> CardOther -> Attachment.

(** [getProfileFromProvider(accessToken)]. *)
Definition getProfileFromProvider (accessToken : string) : Promise Profile :=
  let options :=
    mkOptions meProfileUrl true [("Authorization", "Bearer " ++ accessToken)]
  in
  match get options with
  | Rejected reason => Rejected reason
  | Resolved None => Rejected TypeError
  | Resolved (Some profile) =>
      match user profile with
      | None => Rejected TypeError
      | Some u =>
          Resolved (mkProfile (user_name u) "placeholder@example.org"
                              "https://robohash.org/ian")
      end
  end.

(** [getProfileCard(accessToken)]. *)
Definition getProfileCard (accessToken : string) : Promise Attachment :=
  match getProfileFromProvider accessToken with
  | Rejected reason => Rejected reason
  | Resolved profile =>
      Resolved (thumbnailCard (name profile)
                              [mkCardImage (photo profile)]
                              []
                              (mkCardOther (email profile)))
  end.

End Packages.

End HuddleDialog.

(** ** Further scenarios *)
Module Cases.

(** A key set body without a [keys] property. *)
Definition noKeys : Body.t := Body.mk None None None.

(** Both hops answer, hop 2 with the body without [keys]. *)
Definition keysMissing (k : nat) (u : option string) : Reply :=
  match k with
  | O => Answered 200 (Some Scenario.openIdConfig)
  | _ => Answered 200 (Some noKeys)
  end.

(** Hop 1 is answered with status 404. *)
Definition notFound (k : nat) (u : option string) : Reply :=
  Answered 404 (Some Scenario.openIdConfig).

(** Two records with the [kid] [abc]: the RSA key first, then a record
    without [n] and [e]. *)
Definition shadowed : IKey.t :=
  IKey.mk (Some "EC") None (Some "abc") None None None None None.

(** The RSA key of the scenario under another [kty] and with a
    certificate chain. *)
Definition relabelled : IKey.t :=
  IKey.mk (Some "oct") (Some "enc") (Some "abc") (Some "thumb")
          (IKey.n Scenario.rsaKey) (IKey.e Scenario.rsaKey)
          (Some ["MIIC"]) None.

(** A day, and the loaded object asked [age] milliseconds after it was
    loaded. *)
Definition aDay : Z := 1000 * 60 * 60 * 24.

Definition aged (net : nat -> option string -> Reply) (age : Z) : Sys :=
  mkSys Scenario.loaded
        (mkWorld (Scenario.clockFrom (Scenario.startOfDay + age)) 0 net [] []).

(** A provider of profiles that knows one token. *)
Definition provider (options : HuddleDialog.Options)
  : HuddleDialog.Promise (option HuddleDialog.ProviderProfile) :=
  if existsb (fun h => (fst h =? "Authorization")%string
                       && (snd h =? "Bearer secret")%string)
             (HuddleDialog.headers options)
  then HuddleDialog.Resolved
         (Some (HuddleDialog.mkProviderProfile
                  (Some (HuddleDialog.mkUser (Some "Ian")))))
  else HuddleDialog.Rejected
         (HuddleDialog.RequestRejected (Error.mk "StatusCodeError" "401")).

(** A card is the list of the arguments it was made from. *)
Definition card (title : option string)
           (images : list HuddleDialog.CardImage) (buttons : list unit)
           (other : HuddleDialog.CardOther)
  : option string * list HuddleDialog.CardImage * list unit
    * HuddleDialog.CardOther :=
  (title, images, buttons, other).

End Cases.

(** ** Runs of calls *)

(** The caller asks for the keys [keyIds] one after the other: the values
    handed over, in order, and what the last call leaves. *)
Fixpoint getKeys (toBase64 : string -> string)
         (getPem : string -> string -> string)
         (keyIds : list string) (s : Sys)
  : list (option IOpenIdMetadataKey.t) * Sys :=
  match keyIds with
  | [] => ([], s)
  | keyId :: rest =>
      let (found, s1) := getKey toBase64 getPem keyId s in
      let (others, s2) := getKeys toBase64 getPem rest s1 in
      (found :: others, s2)
  end.


(** * Properties *)

(** ** Strings *)

Lemma prefix_tail (p s : string) :
  prefix p s = true -> (p ++ JS.tail_from (String.length p) s)%string = s.
Proof.
  revert s; induction p as [|c p IH]; intros s H.
  - unfold JS.tail_from; simpl. rewrite Nat.sub_0_r.
    clear H. induction s as [|d s IHs]; simpl; [reflexivity|].
    f_equal. destruct s; simpl in *; [reflexivity | exact IHs].
  - destruct s as [|d s]; simpl in H; [discriminate|].
    destruct (ascii_dec c d) as [->|]; [|discriminate].
    simpl. f_equal. apply (IH s H).
Qed.

(** [indexOf] points at an occurrence: the string is what precedes the
    position, the searched string, and what follows it. *)
Lemma indexOf_split (pat s : string) (i : nat) :
  JS.indexOf pat s = Some i ->
  (substring 0 i s ++ pat ++ JS.tail_from (i + String.length pat) s)%string = s.
Proof.
  revert i; induction s as [|c s IH]; intros i; cbn [JS.indexOf].
  - destruct (prefix pat "") eqn:E; [|discriminate].
    intros [= <-]. apply (prefix_tail pat ""), E.
  - destruct (prefix pat (String c s)) eqn:E.
    + intros [= <-]. apply (prefix_tail pat (String c s)), E.
    + destruct (JS.indexOf pat s) as [j|]; [|discriminate].
      intros [= <-]. cbn [substring append Nat.add]. f_equal.
      apply (IH j eq_refl).
Qed.

Lemma prefix_append (p b : string) : prefix p (p ++ b) = true.
Proof.
  induction p as [|c p IH]; simpl; [destruct b; reflexivity|].
  destruct (ascii_dec c c); [exact IH | congruence].
Qed.

Lemma indexOf_prefix (pat s : string) :
  prefix pat s = true -> JS.indexOf pat s = Some 0%nat.
Proof.
  intros H. destruct s; cbn [JS.indexOf]; now rewrite H.
Qed.

(** [indexOf] points at the first occurrence: no occurrence starts before
    the position it returns. *)
Lemma indexOf_least (pat a b : string) :
  exists i, JS.indexOf pat (a ++ pat ++ b) = Some i /\ (i <= String.length a)%nat.
Proof.
  induction a as [|c a [i [Hi Hle]]].
  - exists 0%nat. split; [|apply Nat.le_refl].
    change ("" ++ pat ++ b)%string with (pat ++ b)%string.
    apply indexOf_prefix, prefix_append.
  - cbn [append JS.indexOf String.length].
    destruct (prefix pat (String c (a ++ pat ++ b))).
    + exists 0%nat. split; [reflexivity | lia].
    + exists (S i). rewrite Hi. split; [reflexivity | lia].
Qed.

(** A replacement text without a dollar sign stands for itself. *)
Lemma GetSubstitution_dollar_free (matched str : string) (pos : nat) (r : string) :
  JS.dollar_free r = true -> JS.GetSubstitution matched str pos r = r.
Proof.
  induction r as [|c r IH]; simpl; [reflexivity|].
  intros H. apply andb_true_iff in H as [Hc Hr].
  apply negb_true_iff in Hc. rewrite Hc. f_equal. exact (IH Hr).
Qed.

(** With a tenant identifier free of dollar signs, [replace] is the
    substitution of the specification. *)
Lemma replace_dollar_free (template tenantId : string) :
  JS.dollar_free tenantId = true ->
  JS.replace template "{tenantid}" tenantId
  = substitute_placeholder template tenantId.
Proof.
  intros H. unfold JS.replace, substitute_placeholder.
  destruct (JS.indexOf "{tenantid}" template); [|reflexivity].
  now rewrite GetSubstitution_dollar_free.
Qed.

(** The substitution of the specification rewrites the first occurrence
    and nothing else. *)
Lemma substitute_placeholder_first (pre post tenantId : string) :
  JS.indexOf "{tenantid}" (pre ++ "{tenantid}" ++ post) = Some (String.length pre) ->
  substitute_placeholder (pre ++ "{tenantid}" ++ post) tenantId
  = (pre ++ tenantId ++ post)%string.
Proof.
  intros H. unfold substitute_placeholder. rewrite H.
  pose proof (indexOf_split _ _ _ H) as E.
  set (s := (pre ++ "{tenantid}" ++ post)%string) in *.
  assert (Hpre : substring 0 (String.length pre) s = pre).
  { subst s. clear. induction pre as [|c pre IH]; simpl.
    - destruct post; reflexivity.
    - f_equal. exact IH. }
  rewrite Hpre in E |- *.
  assert (Hpost : JS.tail_from (String.length pre + String.length "{tenantid}") s = post).
  { subst s. clear - E.
    induction pre as [|c pre IH]; simpl in *.
    - injection E as E. exact E.
    - injection E as E. exact (IH E). }
  now rewrite Hpost.
Qed.

(** ** The refresh protocol, case by case *)

Lemma checked_fails (what : string) (r : Reply) :
  hop_fails r -> exists err, checked what r = inl err.
Proof.
  destruct r as [err|statusCode [body|]]; simpl; intros H; eauto.
  destruct H as [H|H]; [|discriminate].
  destruct (statusCode >=? 400) eqn:E; eauto.
  rewrite Z.geb_leb in E. apply Z.leb_gt in E. lia.
Qed.

Lemma checked_succeeds (what : string) (r : Reply) (body : Body.t) :
  hop_succeeds r body -> checked what r = inr body.
Proof.
  intros [statusCode [-> H]]. simpl.
  destruct (statusCode >=? 400) eqn:E; [|reflexivity].
  rewrite Z.geb_leb in E. apply Z.leb_le in E. lia.
Qed.

(** A reply either fails or succeeds with its body. *)
Lemma hop_fails_or_succeeds (r : Reply) :
  hop_fails r \/ exists body, hop_succeeds r body.
Proof.
  destruct r as [err|statusCode [body|]]; simpl; auto.
  destruct (Z_lt_le_dec statusCode 400); [right|left; auto].
  exists body, statusCode. auto.
Qed.

Lemma hop_fails_not_succeeds (r : Reply) (body : Body.t) :
  hop_fails r -> ~ hop_succeeds r body.
Proof.
  intros Hf [statusCode [-> Hs]]. simpl in Hf.
  destruct Hf as [Hf|Hf]; [lia | discriminate].
Qed.

(** Hop 1 fails: one request is made and the object is left as it was. *)
Lemma refreshCache_hop1_fails (s : Sys) :
  hop_fails (hop1 s) ->
  exists err,
    refreshCache s
    = (Some err, mkSys (this s) (sent (Some (url (this s))) (world s))).
Proof.
  intros H.
  destruct (checked_fails "Failed to load openID config: " _ H) as [err E].
  exists err. unfold refreshCache, bind, get_this, request, ret.
  fold (hop1 s). now rewrite E.
Qed.

(** Hop 1 succeeds and hop 2 fails: two requests are made and only the
    issuer is written. *)
Lemma refreshCache_hop2_fails (s : Sys) (openIdConfig : Body.t) :
  hop_succeeds (hop1 s) openIdConfig ->
  hop_fails (hop2 s openIdConfig) ->
  exists err,
    refreshCache s
    = (Some err,
       mkSys (mkOpenIdMetadata (url (this s)) (lastUpdated (this s))
                               (keys (this s)) (Body.issuer openIdConfig))
             (sent (Body.jwks_uri openIdConfig)
                   (sent (Some (url (this s))) (world s)))).
Proof.
  intros H1 H2.
  pose proof (checked_succeeds "Failed to load openID config: " _ _ H1) as E1.
  destruct (checked_fails "Failed to load Keys: " _ H2) as [err E2].
  exists err.
  unfold refreshCache, bind, get_this, request, ret, set_issuer, modify_this.
  fold (hop1 s). rewrite E1. cbn [this world].
  replace (network _ _ _) with (hop2 s openIdConfig).
  - now rewrite E2.
  - unfold hop2, sent. cbn [network requests].
    rewrite length_app, Nat.add_1_r. reflexivity.
Qed.

(** Both hops succeed: issuer, timestamp and keys are written, the
    timestamp from a new reading of the clock. *)
Lemma refreshCache_succeeds (s : Sys) (openIdConfig body : Body.t) :
  hop_succeeds (hop1 s) openIdConfig ->
  hop_succeeds (hop2 s openIdConfig) body ->
  refreshCache s
  = (None,
     mkSys (mkOpenIdMetadata (url (this s))
                             (clock (world s) (ticks (world s)))
                             (Body.keys body) (Body.issuer openIdConfig))
           (tick (sent (Body.jwks_uri openIdConfig)
                       (sent (Some (url (this s))) (world s))))).
Proof.
  intros H1 H2.
  pose proof (checked_succeeds "Failed to load openID config: " _ _ H1) as E1.
  pose proof (checked_succeeds "Failed to load Keys: " _ _ H2) as E2.
  unfold refreshCache, bind, get_this, request, ret, set_issuer,
    set_lastUpdated, set_keys, modify_this, Date_getTime.
  fold (hop1 s). rewrite E1. cbn [this world].
  replace (network _ _ _) with (hop2 s openIdConfig).
  - now rewrite E2.
  - unfold hop2, sent. cbn [network requests].
    rewrite length_app, Nat.add_1_r. reflexivity.
Qed.

(** [getIssuer] throws exactly when the stored issuer is falsy, and
    otherwise returns the template after [replace]. *)
Lemma getIssuer_throws_iff (o : OpenIdMetadata) (tenantId : string) :
  getIssuer o tenantId = inl NotConfigured <-> JS.truthy (issuer o) = false.
Proof.
  unfold getIssuer. destruct (issuer o) as [template|]; [|tauto].
  destruct (JS.truthy (Some template)); split; congruence.
Qed.

Lemma getIssuer_returns (o : OpenIdMetadata) (template tenantId : string) :
  issuer o = Some template -> template <> "" ->
  getIssuer o tenantId = inr (JS.replace template "{tenantid}" tenantId).
Proof.
  intros E H. unfold getIssuer. rewrite E. simpl.
  destruct (String.eqb_spec template ""); [contradiction | reflexivity].
Qed.

(** After a refresh whose hop 1 succeeds, the stored issuer is the one of
    the discovery document, whatever hop 2 does. *)
Lemma refreshCache_issuer (s : Sys) (openIdConfig : Body.t) :
  hop_succeeds (hop1 s) openIdConfig ->
  issuer (this (snd (refreshCache s))) = Body.issuer openIdConfig.
Proof.
  intros H1.
  destruct (hop_fails_or_succeeds (hop2 s openIdConfig)) as [H2|[body H2]].
  - destruct (refreshCache_hop2_fails s _ H1 H2) as [err ->]. reflexivity.
  - rewrite (refreshCache_succeeds s _ _ H1 H2). reflexivity.
Qed.

(** ** Claims about the refresh protocol *)

(** C6. When hop 1 of a refresh fails (transport error, status of 400 or
    more, or empty body), the refresh reports an error and the cached keys,
    the timestamp of the last refresh and the cached issuer are what they
    were; a [getIssuer] that threw the not-configured error before the
    refresh throws it afterwards. *)
Theorem refresh_hop1_failure_changes_nothing (s : Sys) :
  hop_fails (hop1 s) ->
  (exists err, fst (refreshCache s) = Some err)
  /\ keys (this (snd (refreshCache s))) = keys (this s)
  /\ lastUpdated (this (snd (refreshCache s))) = lastUpdated (this s)
  /\ issuer (this (snd (refreshCache s))) = issuer (this s)
  /\ (forall tenantId,
        getIssuer (this s) tenantId = inl NotConfigured ->
        getIssuer (this (snd (refreshCache s))) tenantId = inl NotConfigured).
Proof.
  intros H. destruct (refreshCache_hop1_fails s H) as [err E].
  rewrite E. cbn [fst snd this]. repeat split; eauto.
Qed.

Lemma refresh_hop1_failure_changes_nothing_witness :
  keys (this (snd (refreshCache (Scenario.loadedAt 0))))
  = Some [Scenario.rsaKey; Scenario.ecKey]
  /\ lastUpdated (this (snd (refreshCache (Scenario.loadedAt 0))))
     = Scenario.startOfDay.
Proof.
  assert (H : hop_fails (hop1 (Scenario.loadedAt 0))) by exact I.
  destruct (refresh_hop1_failure_changes_nothing (Scenario.loadedAt 0) H)
    as [_ [Hk [Hl _]]].
  split; [exact Hk | exact Hl].
Defined.

(** C1, amended.  When hop 1 of a refresh succeeds and hop 2 fails, the
    refresh reports an error, the stored issuer becomes the [issuer] of the
    discovery document, and the cached keys and the timestamp of the last
    refresh are what they were.  A later [getIssuer] returns the template
    with the tenant identifier put in by [replace] provided that this
    issuer is a non-empty string. *)
Theorem refresh_hop2_failure_commits_issuer (s : Sys) (openIdConfig : Body.t) :
  hop_succeeds (hop1 s) openIdConfig ->
  hop_fails (hop2 s openIdConfig) ->
  (exists err, fst (refreshCache s) = Some err)
  /\ issuer (this (snd (refreshCache s))) = Body.issuer openIdConfig
  /\ keys (this (snd (refreshCache s))) = keys (this s)
  /\ lastUpdated (this (snd (refreshCache s))) = lastUpdated (this s)
  /\ (forall template tenantId,
        Body.issuer openIdConfig = Some template -> template <> "" ->
        getIssuer (this (snd (refreshCache s))) tenantId
        = inr (JS.replace template "{tenantid}" tenantId)).
Proof.
  intros H1 H2. destruct (refreshCache_hop2_fails s _ H1 H2) as [err E].
  rewrite E. cbn [fst snd this]. repeat split; eauto.
  intros template tenantId Ei Hne. now apply getIssuer_returns.
Qed.

Lemma refresh_hop2_failure_commits_issuer_witness :
  getIssuer (this (snd (refreshCache (Scenario.fresh Scenario.keysDown))))
            "tenant1"
  = inr "https://login/tenant1/v2"
  /\ keys (this (snd (refreshCache (Scenario.fresh Scenario.keysDown)))) = None
  /\ lastUpdated (this (snd (refreshCache (Scenario.fresh Scenario.keysDown))))
     = 0.
Proof.
  assert (H1 : hop_succeeds (hop1 (Scenario.fresh Scenario.keysDown))
                            Scenario.openIdConfig).
  { exists 200. split; [reflexivity | lia]. }
  assert (H2 : hop_fails (hop2 (Scenario.fresh Scenario.keysDown)
                               Scenario.openIdConfig)).
  { right. reflexivity. }
  destruct (refresh_hop2_failure_commits_issuer _ _ H1 H2)
    as [_ [_ [Hk [Hl Hg]]]].
  split; [|split; [exact Hk | exact Hl]].
  apply (Hg "https://login/{tenantid}/v2" "tenant1" eq_refl). discriminate.
Defined.

(** C1 as stated fails: hop 1 succeeds with a discovery document whose
    issuer is the empty string, hop 2 fails, and [getIssuer] still throws
    the not-configured error after the refresh. *)
Lemma refresh_hop2_failure_issuer_still_unavailable :
  hop_succeeds (hop1 (Scenario.fresh Scenario.emptyIssuerKeysDown))
               Scenario.emptyIssuerConfig
  /\ hop_fails (hop2 (Scenario.fresh Scenario.emptyIssuerKeysDown)
                     Scenario.emptyIssuerConfig)
  /\ getIssuer
       (this (snd (refreshCache (Scenario.fresh Scenario.emptyIssuerKeysDown))))
       "tenant1"
     = inl NotConfigured.
Proof.
  split; [|split].
  - exists 200. split; [reflexivity | lia].
  - right. reflexivity.
  - reflexivity.
Qed.

(** C9. When hop 1 of a refresh succeeds with a discovery document whose
    [issuer] is the empty string, a later [getIssuer] throws the
    not-configured error, whatever the tenant identifier and whatever the
    outcome of hop 2: the test is on the stored issuer being falsy. *)
Theorem refresh_empty_issuer_not_configured
        (s : Sys) (openIdConfig : Body.t) (tenantId : string) :
  hop_succeeds (hop1 s) openIdConfig ->
  Body.issuer openIdConfig = Some "" ->
  getIssuer (this (snd (refreshCache s))) tenantId = inl NotConfigured.
Proof.
  intros H1 E. apply getIssuer_throws_iff.
  rewrite (refreshCache_issuer s _ H1), E. reflexivity.
Qed.

Lemma refresh_empty_issuer_not_configured_witness :
  getIssuer
    (this (snd (refreshCache (Scenario.fresh Scenario.emptyIssuerKeysDown))))
    "72f988bf-86f1-41af-91ab-2d7cd011db47"
  = inl NotConfigured.
Proof.
  apply (refresh_empty_issuer_not_configured
           (Scenario.fresh Scenario.emptyIssuerKeysDown)
           Scenario.emptyIssuerConfig).
  - exists 200. split; [reflexivity | lia].
  - reflexivity.
Defined.

(** Every refresh starts with a request for the discovery url. *)
Lemma refreshCache_requests (s : Sys) :
  exists rest,
    requests (world (snd (refreshCache s)))
    = (requests (world s) ++ Some (url (this s)) :: rest)%list.
Proof.
  destruct (hop_fails_or_succeeds (hop1 s)) as [H1|[openIdConfig H1]].
  - destruct (refreshCache_hop1_fails s H1) as [err ->]. now exists [].
  - destruct (hop_fails_or_succeeds (hop2 s openIdConfig)) as [H2|[body H2]].
    + destruct (refreshCache_hop2_fails s _ H1 H2) as [err ->].
      exists [Body.jwks_uri openIdConfig]. cbn [snd world sent requests].
      now rewrite <- app_assoc.
    + rewrite (refreshCache_succeeds s _ _ H1 H2).
      exists [Body.jwks_uri openIdConfig]. cbn [snd world sent tick requests].
      now rewrite <- app_assoc.
Qed.

(** A refresh leaves the console, the clock and the network as they were. *)
Lemma refreshCache_console (s : Sys) :
  console (world (snd (refreshCache s))) = console (world s).
Proof.
  destruct (hop_fails_or_succeeds (hop1 s)) as [H1|[openIdConfig H1]].
  - now destruct (refreshCache_hop1_fails s H1) as [err ->].
  - destruct (hop_fails_or_succeeds (hop2 s openIdConfig)) as [H2|[body H2]].
    + now destruct (refreshCache_hop2_fails s _ H1 H2) as [err ->].
    + now rewrite (refreshCache_succeeds s _ _ H1 H2).
Qed.

(** A failing refresh reports an error. *)
Lemma refreshCache_fails (s : Sys) :
  refresh_fails s -> exists err, fst (refreshCache s) = Some err.
Proof.
  intros [H1|[openIdConfig [H1 H2]]].
  - destruct (refreshCache_hop1_fails s H1) as [err ->]. now exists err.
  - destruct (refreshCache_hop2_fails s _ H1 H2) as [err ->]. now exists err.
Qed.

(** The timestamp changes only when both hops succeed. *)
Lemma refreshCache_lastUpdated_changed (s : Sys) :
  lastUpdated (this (snd (refreshCache s))) <> lastUpdated (this s) ->
  exists openIdConfig body,
    hop_succeeds (hop1 s) openIdConfig /\ hop_succeeds (hop2 s openIdConfig) body.
Proof.
  intros Hne.
  destruct (hop_fails_or_succeeds (hop1 s)) as [H1|[openIdConfig H1]].
  - destruct (refreshCache_hop1_fails s H1) as [err E].
    rewrite E in Hne. now contradiction Hne.
  - destruct (hop_fails_or_succeeds (hop2 s openIdConfig)) as [H2|[body H2]].
    + destruct (refreshCache_hop2_fails s _ H1 H2) as [err E].
      rewrite E in Hne. now contradiction Hne.
    + eauto.
Qed.

(** ** Key lookup *)

Section Lookup.

Variable toBase64 : string -> string.
Variable getPem : string -> string -> string.

Lemma strict_eq_false (v : option string) (keyId : string) :
  v <> Some keyId -> JS.strict_eq v keyId = false.
Proof.
  destruct v as [k|]; simpl; [|reflexivity].
  intros H. destruct (String.eqb_spec k keyId); congruence.
Qed.

Lemma strict_eq_true (keyId : string) : JS.strict_eq (Some keyId) keyId = true.
Proof. apply String.eqb_refl. Qed.

(** Records with another [kid] are stepped over. *)
Lemma findKey_loop_skip (pre rest : list IKey.t) (keyId : string) :
  (forall k, In k pre -> IKey.kid k <> Some keyId) ->
  findKey_loop toBase64 getPem (pre ++ rest) keyId
  = findKey_loop toBase64 getPem rest keyId.
Proof.
  induction pre as [|k pre IH]; intros H; [reflexivity|].
  cbn [app findKey_loop].
  rewrite strict_eq_false by (apply H; now left).
  apply IH. intros k' Hin. apply H. now right.
Qed.

Lemma findKey_loop_no_match (ks : list IKey.t) (keyId : string) :
  (forall k, In k ks -> IKey.kid k <> Some keyId) ->
  findKey_loop toBase64 getPem ks keyId = None.
Proof.
  intros H. rewrite <- (app_nil_r ks). now rewrite findKey_loop_skip.
Qed.

(** The first record with the [kid] decides: without [n] or [e] the
    result is [null]. *)
Lemma findKey_loop_first_not_rsa (pre post : list IKey.t) (k : IKey.t)
      (keyId : string) :
  (forall k', In k' pre -> IKey.kid k' <> Some keyId) ->
  IKey.kid k = Some keyId ->
  JS.truthy (IKey.n k) = false \/ JS.truthy (IKey.e k) = false ->
  findKey_loop toBase64 getPem (pre ++ k :: post) keyId = None.
Proof.
  intros Hpre Hk Hne. rewrite findKey_loop_skip by exact Hpre.
  cbn [findKey_loop]. rewrite Hk, strict_eq_true.
  destruct (IKey.n k) as [n|], (IKey.e k) as [e|]; try reflexivity.
  destruct Hne as [-> | ->]; [reflexivity|].
  now rewrite orb_true_r.
Qed.

(** The first record with the [kid] decides: with [n] and [e] the result
    is the PEM of the two, with the endorsements of the record. *)
Lemma findKey_loop_first_rsa (pre post : list IKey.t) (k : IKey.t)
      (keyId n e : string) :
  (forall k', In k' pre -> IKey.kid k' <> Some keyId) ->
  IKey.kid k = Some keyId ->
  IKey.n k = Some n -> n <> "" -> IKey.e k = Some e -> e <> "" ->
  findKey_loop toBase64 getPem (pre ++ k :: post) keyId
  = Some (IOpenIdMetadataKey.mk (getPem (toBase64 n) e) (IKey.endorsements k)).
Proof.
  intros Hpre Hk Hn Hn' He He'. rewrite findKey_loop_skip by exact Hpre.
  cbn [findKey_loop]. rewrite Hk, strict_eq_true, Hn, He. simpl.
  destruct (String.eqb_spec n ""); [contradiction|].
  destruct (String.eqb_spec e ""); [contradiction|]. reflexivity.
Qed.

(** [getKey] within the freshness window: the clock is read, nothing is
    requested and nothing is written. *)
Lemma getKey_fresh (keyId : string) (s : Sys) :
  clock (world s) (ticks (world s)) - 1000 * 60 * 60 * 24 * 5
    <= lastUpdated (this s) ->
  getKey toBase64 getPem keyId s
  = (findKey toBase64 getPem (this s) keyId, mkSys (this s) (tick (world s))).
Proof.
  intros H. unfold getKey, bind, Date_getTime, get_this, ret.
  cbn [this world].
  destruct (Z.ltb_spec (lastUpdated (this s))
              (clock (world s) (ticks (world s)) - 1000 * 60 * 60 * 24 * 5));
    [lia | reflexivity].
Qed.

(** [getKey] outside the window: the refresh runs first; an error is
    written to the console; the search runs on what the refresh left. *)
Lemma getKey_stale (keyId : string) (s : Sys) :
  lastUpdated (this s)
    < clock (world s) (ticks (world s)) - 1000 * 60 * 60 * 24 * 5 ->
  getKey toBase64 getPem keyId s
  = let r := refreshCache (mkSys (this s) (tick (world s))) in
    (findKey toBase64 getPem (this (snd r)) keyId,
     mkSys (this (snd r))
           match fst r with
           | Some err => logged (refresh_error_line (this s) err) (world (snd r))
           | None => world (snd r)
           end).
Proof.
  intros H. unfold getKey, bind, Date_getTime, get_this, ret.
  cbn [this world].
  destruct (Z.ltb_spec (lastUpdated (this s))
              (clock (world s) (ticks (world s)) - 1000 * 60 * 60 * 24 * 5));
    [|lia].
  destruct (refreshCache (mkSys (this s) (tick (world s))))
    as [[err|] [o1 w1]]; reflexivity.
Qed.

(** The result of [getKey] is always the search of the cache that the
    call leaves behind. *)
Lemma getKey_result (keyId : string) (s : Sys) :
  fst (getKey toBase64 getPem keyId s)
  = findKey toBase64 getPem (this (snd (getKey toBase64 getPem keyId s))) keyId.
Proof.
  destruct (Z_lt_le_dec (lastUpdated (this s))
              (clock (world s) (ticks (world s)) - 1000 * 60 * 60 * 24 * 5)).
  - now rewrite getKey_stale.
  - now rewrite getKey_fresh.
Qed.

End Lookup.

(** A failing refresh leaves the cached keys as they were. *)
Lemma refreshCache_fails_keys (s : Sys) :
  refresh_fails s -> keys (this (snd (refreshCache s))) = keys (this s).
Proof.
  intros [H1|[openIdConfig [H1 H2]]].
  - now destruct (refreshCache_hop1_fails s H1) as [err ->].
  - now destruct (refreshCache_hop2_fails s _ H1 H2) as [err ->].
Qed.

(** ** Claims about [getKey] *)

(** C3. [getKey] hands [null] to its caller when the key is missing:
    when the cache it leaves behind holds no keys at all, when none of the
    cached records has the [kid] asked for, and in particular when no keys
    were ever loaded and the refresh, if one runs, fails.  A refresh that
    fails writes one line to the console and the caller still receives the
    result of the search, not the error. *)
Theorem getKey_missing_key_is_null
        (toBase64 : string -> string) (getPem : string -> string -> string)
        (keyId : string) (s : Sys) :
  (keys (this (snd (getKey toBase64 getPem keyId s))) = None ->
   fst (getKey toBase64 getPem keyId s) = None)
  /\ (forall ks,
        keys (this (snd (getKey toBase64 getPem keyId s))) = Some ks ->
        (forall k, In k ks -> IKey.kid k <> Some keyId) ->
        fst (getKey toBase64 getPem keyId s) = None)
  /\ (keys (this s) = None ->
      (lastUpdated (this s)
         < clock (world s) (ticks (world s)) - 1000 * 60 * 60 * 24 * 5 ->
       refresh_fails s) ->
      fst (getKey toBase64 getPem keyId s) = None)
  /\ (lastUpdated (this s)
        < clock (world s) (ticks (world s)) - 1000 * 60 * 60 * 24 * 5 ->
      refresh_fails s ->
      exists err,
        console (world (snd (getKey toBase64 getPem keyId s)))
        = (console (world s) ++ [refresh_error_line (this s) err])%list
        /\ fst (getKey toBase64 getPem keyId s)
           = findKey toBase64 getPem
                     (this (snd (getKey toBase64 getPem keyId s))) keyId).
Proof.
  split; [|split; [|split]].
  - intros E. rewrite getKey_result. unfold findKey. now rewrite E.
  - intros ks E H. rewrite getKey_result. unfold findKey. rewrite E.
    now apply findKey_loop_no_match.
  - intros E H.
    destruct (Z_lt_le_dec (lastUpdated (this s))
                (clock (world s) (ticks (world s)) - 1000 * 60 * 60 * 24 * 5))
      as [Hstale|Hfresh].
    + rewrite getKey_stale by exact Hstale. cbn [fst].
      unfold findKey.
      rewrite (refreshCache_fails_keys (mkSys (this s) (tick (world s)))
                                       (H Hstale)).
      cbn [this]. now rewrite E.
    + rewrite getKey_fresh by exact Hfresh. cbn [fst].
      unfold findKey. now rewrite E.
  - intros Hstale Hfail.
    destruct (refreshCache_fails (mkSys (this s) (tick (world s))) Hfail)
      as [err Herr].
    exists err. split; [|apply getKey_result].
    rewrite getKey_stale by exact Hstale. cbn [snd world].
    rewrite Herr. cbn [logged console].
    now rewrite refreshCache_console.
Qed.

Lemma getKey_missing_key_is_null_witness :
  fst (getKey Scenario.toBase64 Scenario.getPem "abc"
              (Scenario.fresh Scenario.offline)) = None
  /\ fst (getKey Scenario.toBase64 Scenario.getPem "xyz"
                 (Scenario.fresh Scenario.online)) = None.
Proof.
  split.
  - apply (getKey_missing_key_is_null Scenario.toBase64 Scenario.getPem "abc"
             (Scenario.fresh Scenario.offline)).
    + reflexivity.
    + intros _. left. exact I.
  - apply (getKey_missing_key_is_null Scenario.toBase64 Scenario.getPem "xyz"
             (Scenario.fresh Scenario.online))
      with (ks := [Scenario.rsaKey; Scenario.ecKey]).
    + reflexivity.
    + intros k [<-|[<-|[]]]; discriminate.
Defined.

(** C4. With the last refresh at [T], a [getKey] at [T] plus five days
    minus one millisecond requests nothing and searches the cache as it
    is; a [getKey] at [T] plus five days plus one millisecond runs the
    refresh, whose first request is for the discovery url, and searches
    what the refresh leaves.  Five days are 432000000 milliseconds, and the
    refresh runs exactly when more than that has passed. *)
Theorem getKey_freshness_boundary
        (toBase64 : string -> string) (getPem : string -> string -> string)
        (keyId : string) (s : Sys) (T : Z) :
  lastUpdated (this s) = T ->
  (clock (world s) (ticks (world s)) = T + 1000 * 60 * 60 * 24 * 5 - 1 ->
   fst (getKey toBase64 getPem keyId s) = findKey toBase64 getPem (this s) keyId
   /\ this (snd (getKey toBase64 getPem keyId s)) = this s
   /\ requests (world (snd (getKey toBase64 getPem keyId s)))
      = requests (world s))
  /\ (clock (world s) (ticks (world s)) = T + 1000 * 60 * 60 * 24 * 5 + 1 ->
      this (snd (getKey toBase64 getPem keyId s))
      = this (snd (refreshCache (mkSys (this s) (tick (world s)))))
      /\ fst (getKey toBase64 getPem keyId s)
         = findKey toBase64 getPem
             (this (snd (refreshCache (mkSys (this s) (tick (world s))))))
             keyId
      /\ exists rest,
          requests (world (snd (getKey toBase64 getPem keyId s)))
          = (requests (world s) ++ Some (url (this s)) :: rest)%list)
  /\ 1000 * 60 * 60 * 24 * 5 = 432000000
  /\ (requests (world (snd (getKey toBase64 getPem keyId s)))
      = requests (world s)
      <-> clock (world s) (ticks (world s)) <= T + 432000000).
Proof.
  intros HT.
  assert (Hreq : forall r : option Error.t * Sys,
             requests (world (mkSys (this (snd r))
                        match fst r with
                        | Some err =>
                            logged (refresh_error_line (this s) err)
                                   (world (snd r))
                        | None => world (snd r)
                        end))
             = requests (world (snd r))).
  { intros [[err|] s1]; reflexivity. }
  split; [|split; [|split]].
  - intros Hnow. rewrite getKey_fresh by lia. auto.
  - intros Hnow. rewrite getKey_stale by lia. cbn [fst snd this].
    split; [reflexivity | split; [reflexivity|]].
    destruct (refreshCache_requests (mkSys (this s) (tick (world s))))
      as [rest E].
    exists rest. rewrite Hreq. exact E.
  - reflexivity.
  - destruct (Z_lt_le_dec (lastUpdated (this s))
                (clock (world s) (ticks (world s)) - 1000 * 60 * 60 * 24 * 5))
      as [Hstale|Hfresh].
    + rewrite getKey_stale by exact Hstale. cbn [snd]. rewrite Hreq.
      destruct (refreshCache_requests (mkSys (this s) (tick (world s))))
        as [rest E].
      rewrite E. cbn [world this tick requests]. split; [|lia].
      intros Habs. exfalso.
      apply (f_equal (@List.length _)) in Habs.
      rewrite length_app in Habs. cbn [List.length] in Habs. lia.
    + rewrite getKey_fresh by exact Hfresh. cbn [snd world tick requests].
      split; [lia | reflexivity].
Qed.

Lemma getKey_freshness_boundary_witness :
  requests (world (snd (getKey Scenario.toBase64 Scenario.getPem "abc"
     (Scenario.loadedAt (Scenario.startOfDay + 432000000 - 1))))) = []
  /\ exists rest,
      requests (world (snd (getKey Scenario.toBase64 Scenario.getPem "abc"
        (Scenario.loadedAt (Scenario.startOfDay + 432000000 + 1)))))
      = Some Scenario.discoveryURL :: rest.
Proof.
  split.
  - destruct (getKey_freshness_boundary Scenario.toBase64 Scenario.getPem "abc"
                (Scenario.loadedAt (Scenario.startOfDay + 432000000 - 1))
                Scenario.startOfDay eq_refl) as [Hbelow _].
    destruct (Hbelow eq_refl) as [_ [_ Hreq]]. exact Hreq.
  - destruct (getKey_freshness_boundary Scenario.toBase64 Scenario.getPem "abc"
                (Scenario.loadedAt (Scenario.startOfDay + 432000000 + 1))
                Scenario.startOfDay eq_refl) as [_ [Habove _]].
    destruct (Habove eq_refl) as [_ [_ Hreq]]. exact Hreq.
Defined.

(** C7. When the first cached record with the [kid] asked for lacks the
    modulus [n] or the exponent [e] (the property is absent, or empty),
    [getKey] hands [null] to its caller although the record is in the
    cache.  With one record per [kid] this is every record with that
    [kid]. *)
Theorem getKey_non_rsa_key_is_null
        (toBase64 : string -> string) (getPem : string -> string -> string)
        (keyId : string) (s : Sys) (pre post : list IKey.t) (k : IKey.t) :
  keys (this (snd (getKey toBase64 getPem keyId s))) = Some (pre ++ k :: post)%list ->
  (forall k', In k' pre -> IKey.kid k' <> Some keyId) ->
  IKey.kid k = Some keyId ->
  JS.truthy (IKey.n k) = false \/ JS.truthy (IKey.e k) = false ->
  fst (getKey toBase64 getPem keyId s) = None.
Proof.
  intros E Hpre Hk Hne. rewrite getKey_result. unfold findKey. rewrite E.
  now apply findKey_loop_first_not_rsa.
Qed.

Lemma getKey_non_rsa_key_is_null_witness :
  fst (getKey Scenario.toBase64 Scenario.getPem "ec1"
              (Scenario.fresh Scenario.online)) = None.
Proof.
  apply (getKey_non_rsa_key_is_null Scenario.toBase64 Scenario.getPem "ec1"
           (Scenario.fresh Scenario.online)
           [Scenario.rsaKey] [] Scenario.ecKey).
  - reflexivity.
  - intros k' [<-|[]]. discriminate.
  - reflexivity.
  - left. reflexivity.
Defined.

(** When every cached record with the [kid] asked for lacks [n] or [e],
    and so when the only such record does, the search finds nothing. *)
Lemma findKey_loop_all_not_rsa
      (toBase64 : string -> string) (getPem : string -> string -> string)
      (ks : list IKey.t) (keyId : string) :
  (forall k, In k ks -> IKey.kid k = Some keyId ->
             JS.truthy (IKey.n k) = false \/ JS.truthy (IKey.e k) = false) ->
  findKey_loop toBase64 getPem ks keyId = None.
Proof.
  induction ks as [|k ks IH]; intros H; [reflexivity|].
  cbn [findKey_loop].
  destruct (JS.strict_eq (IKey.kid k) keyId) eqn:E.
  - assert (Hk : IKey.kid k = Some keyId).
    { destruct (IKey.kid k) as [k0|]; [|discriminate]. simpl in E.
      apply String.eqb_eq in E. now subst. }
    destruct (H k (or_introl eq_refl) Hk) as [Hn|He];
      destruct (IKey.n k) as [n|], (IKey.e k) as [e|]; try reflexivity.
    + now rewrite Hn.
    + rewrite He. now rewrite orb_true_r.
  - apply IH. intros k' Hin. apply H. now right.
Qed.

(** C8. Two [getKey] calls for the same [kid], one after the other and
    both within the freshness window, hand the same value to their callers
    (the same PEM and the same endorsements, or [null] twice), request
    nothing from the network, and leave the object as it was. *)
Theorem getKey_twice_within_window
        (toBase64 : string -> string) (getPem : string -> string -> string)
        (keyId : string) (s : Sys) :
  clock (world s) (ticks (world s)) - 1000 * 60 * 60 * 24 * 5
    <= lastUpdated (this s) ->
  clock (world s) (S (ticks (world s))) - 1000 * 60 * 60 * 24 * 5
    <= lastUpdated (this s) ->
  fst (getKey toBase64 getPem keyId (snd (getKey toBase64 getPem keyId s)))
  = fst (getKey toBase64 getPem keyId s)
  /\ requests (world (snd (getKey toBase64 getPem keyId s)))
     = requests (world s)
  /\ requests (world (snd (getKey toBase64 getPem keyId
                             (snd (getKey toBase64 getPem keyId s)))))
     = requests (world s)
  /\ this (snd (getKey toBase64 getPem keyId
                  (snd (getKey toBase64 getPem keyId s))))
     = this s.
Proof.
  intros H1 H2.
  rewrite (getKey_fresh toBase64 getPem keyId s H1). cbn [fst snd].
  rewrite (getKey_fresh toBase64 getPem keyId
             (mkSys (this s) (tick (world s))) H2).
  repeat split.
Qed.

Lemma getKey_twice_within_window_witness :
  fst (getKey Scenario.toBase64 Scenario.getPem "abc"
         (snd (getKey Scenario.toBase64 Scenario.getPem "abc"
                 (Scenario.loadedAt (Scenario.startOfDay + 1000)))))
  = fst (getKey Scenario.toBase64 Scenario.getPem "abc"
           (Scenario.loadedAt (Scenario.startOfDay + 1000)))
  /\ requests (world (snd (getKey Scenario.toBase64 Scenario.getPem "abc"
         (snd (getKey Scenario.toBase64 Scenario.getPem "abc"
                 (Scenario.loadedAt (Scenario.startOfDay + 1000)))))))
     = [].
Proof.
  assert (H1 : clock (world (Scenario.loadedAt (Scenario.startOfDay + 1000)))
                 (ticks (world (Scenario.loadedAt (Scenario.startOfDay + 1000))))
               - 1000 * 60 * 60 * 24 * 5
               <= lastUpdated (this (Scenario.loadedAt (Scenario.startOfDay + 1000)))).
  { vm_compute. discriminate. }
  assert (H2 : clock (world (Scenario.loadedAt (Scenario.startOfDay + 1000)))
                 (S (ticks (world (Scenario.loadedAt (Scenario.startOfDay + 1000)))))
               - 1000 * 60 * 60 * 24 * 5
               <= lastUpdated (this (Scenario.loadedAt (Scenario.startOfDay + 1000)))).
  { vm_compute. discriminate. }
  destruct (getKey_twice_within_window Scenario.toBase64 Scenario.getPem "abc"
              (Scenario.loadedAt (Scenario.startOfDay + 1000)) H1 H2)
    as [Hsame [_ [Hreq _]]].
  split; [exact Hsame | exact Hreq].
Defined.

(** C2. When both hops of a refresh succeed, the cached keys become the
    [keys] of the body of hop 2, as they are, and the timestamp of the
    last refresh becomes the reading of the clock taken then; on a clock
    that never runs backwards that reading is no earlier than any reading
    taken before, the one by which [getKey] started the refresh included,
    and it is later than the timestamp it replaces.  The timestamp changes
    in no other case: not in a refresh of which a hop fails, and not in a
    [getKey] that runs no refresh. *)
Theorem refresh_success_replaces_keys
        (toBase64 : string -> string) (getPem : string -> string -> string)
        (s : Sys) :
  (forall openIdConfig body,
      hop_succeeds (hop1 s) openIdConfig ->
      hop_succeeds (hop2 s openIdConfig) body ->
      keys (this (snd (refreshCache s))) = Body.keys body
      /\ lastUpdated (this (snd (refreshCache s)))
         = clock (world s) (ticks (world s))
      /\ (monotone (clock (world s)) ->
          forall i, (i <= ticks (world s))%nat ->
                    clock (world s) i <= lastUpdated (this (snd (refreshCache s))))
      /\ (forall keyId,
            monotone (clock (world s)) ->
            lastUpdated (this s)
              < clock (world s) (ticks (world s)) - 1000 * 60 * 60 * 24 * 5 ->
            keys (this (snd (getKey toBase64 getPem keyId s))) = Body.keys body
            /\ clock (world s) (ticks (world s))
               <= lastUpdated (this (snd (getKey toBase64 getPem keyId s)))
            /\ lastUpdated (this s)
               < lastUpdated (this (snd (getKey toBase64 getPem keyId s)))))
  /\ (lastUpdated (this (snd (refreshCache s))) <> lastUpdated (this s) ->
      exists openIdConfig body,
        hop_succeeds (hop1 s) openIdConfig
        /\ hop_succeeds (hop2 s openIdConfig) body)
  /\ (forall keyId,
        lastUpdated (this (snd (getKey toBase64 getPem keyId s)))
          <> lastUpdated (this s) ->
        lastUpdated (this s)
          < clock (world s) (ticks (world s)) - 1000 * 60 * 60 * 24 * 5
        /\ exists openIdConfig body,
            hop_succeeds (hop1 s) openIdConfig
            /\ hop_succeeds (hop2 s openIdConfig) body).
Proof.
  split; [|split].
  - intros openIdConfig body H1 H2.
    rewrite (refreshCache_succeeds s _ _ H1 H2). cbn [snd this keys lastUpdated].
    split; [reflexivity | split; [reflexivity | split]].
    + intros Hmono i Hi. now apply Hmono.
    + intros keyId Hmono Hstale.
      rewrite getKey_stale by exact Hstale. cbn [snd this].
      rewrite (refreshCache_succeeds (mkSys (this s) (tick (world s)))
                                     openIdConfig body H1 H2).
      cbn [snd this world tick keys lastUpdated clock ticks].
      pose proof (Hmono (ticks (world s)) (S (ticks (world s)))
                        (Nat.le_succ_diag_r _)).
      repeat split; lia.
  - apply refreshCache_lastUpdated_changed.
  - intros keyId Hne.
    destruct (Z_lt_le_dec (lastUpdated (this s))
                (clock (world s) (ticks (world s)) - 1000 * 60 * 60 * 24 * 5))
      as [Hstale|Hfresh].
    + split; [exact Hstale|].
      rewrite getKey_stale in Hne by exact Hstale. cbn [snd this] in Hne.
      exact (refreshCache_lastUpdated_changed
               (mkSys (this s) (tick (world s))) Hne).
    + rewrite getKey_fresh in Hne by exact Hfresh. now contradiction Hne.
Qed.

Lemma refresh_success_replaces_keys_witness :
  keys (this (snd (refreshCache (Scenario.fresh Scenario.online))))
  = Some [Scenario.rsaKey; Scenario.ecKey]
  /\ Scenario.startOfDay
     <= lastUpdated (this (snd (getKey Scenario.toBase64 Scenario.getPem "abc"
                                  (Scenario.fresh Scenario.online)))).
Proof.
  assert (H1 : hop_succeeds (hop1 (Scenario.fresh Scenario.online))
                            Scenario.openIdConfig).
  { exists 200. split; [reflexivity | lia]. }
  assert (H2 : hop_succeeds (hop2 (Scenario.fresh Scenario.online)
                                  Scenario.openIdConfig) Scenario.jwks).
  { exists 200. split; [reflexivity | lia]. }
  destruct (refresh_success_replaces_keys Scenario.toBase64 Scenario.getPem
              (Scenario.fresh Scenario.online)) as [Hok _].
  destruct (Hok _ _ H1 H2) as [Hkeys [_ [_ Hget]]].
  split; [exact Hkeys|].
  apply (Hget "abc").
  - intros i j Hij. unfold Scenario.fresh, Scenario.worldOf, Scenario.clockFrom.
    cbn [world clock]. lia.
  - vm_compute. reflexivity.
Defined.

(** ** Claims about [getIssuer] *)

(** [getIssuer] throws the not-configured error as long as no issuer was
    stored, in particular on a new object. *)
Lemma getIssuer_never_fetched (o : OpenIdMetadata) (tenantId : string) :
  issuer o = None -> getIssuer o tenantId = inl NotConfigured.
Proof. intros E. unfold getIssuer. now rewrite E. Qed.

(** For a tenant identifier free of dollar signs, [getIssuer] returns the
    template with the identifier in the place of the placeholder. *)
Lemma getIssuer_literal (o : OpenIdMetadata) (template tenantId : string) :
  issuer o = Some template -> template <> "" ->
  JS.dollar_free tenantId = true ->
  getIssuer o tenantId = inr (substitute_placeholder template tenantId).
Proof.
  intros E Hne Hfree. rewrite (getIssuer_returns o template tenantId E Hne).
  now rewrite replace_dollar_free.
Qed.

(** For such an identifier only the first placeholder is rewritten: what
    follows it, later placeholders included, is returned as it is. *)
Lemma getIssuer_first_occurrence_only
      (o : OpenIdMetadata) (pre post tenantId : string) :
  issuer o = Some (pre ++ "{tenantid}" ++ post)%string ->
  JS.indexOf "{tenantid}" (pre ++ "{tenantid}" ++ post) = Some (String.length pre) ->
  JS.dollar_free tenantId = true ->
  getIssuer o tenantId = inr (pre ++ tenantId ++ post)%string.
Proof.
  intros E Hfirst Hfree.
  rewrite (getIssuer_literal o _ tenantId E); [| |exact Hfree].
  - now rewrite substitute_placeholder_first.
  - destruct pre; discriminate.
Qed.

(** A [getKey] whose refresh, if one runs, fails at hop 1 leaves the
    object as it was. *)
Lemma getKey_hop1_fails_this
      (toBase64 : string -> string) (getPem : string -> string -> string)
      (keyId : string) (s : Sys) :
  (lastUpdated (this s)
     < clock (world s) (ticks (world s)) - 1000 * 60 * 60 * 24 * 5 ->
   hop_fails (hop1 s)) ->
  this (snd (getKey toBase64 getPem keyId s)) = this s.
Proof.
  intros H.
  destruct (Z_lt_le_dec (lastUpdated (this s))
              (clock (world s) (ticks (world s)) - 1000 * 60 * 60 * 24 * 5))
    as [Hstale|Hfresh].
  - rewrite getKey_stale by exact Hstale. cbn [snd this].
    now destruct (refreshCache_hop1_fails (mkSys (this s) (tick (world s)))
                    (H Hstale)) as [err ->].
  - now rewrite getKey_fresh.
Qed.

(** With the template [https://login/{tenantid}/v2] and the tenant
    identifier [$&], [getIssuer] returns the template unchanged, while the
    substitution of the specification gives [https://login/$&/v2]. *)
Lemma getIssuer_expands_replacement_pattern :
  getIssuer Scenario.loaded "$&" = inr "https://login/{tenantid}/v2"
  /\ substitute_placeholder "https://login/{tenantid}/v2" "$&"
     = "https://login/$&/v2".
Proof. split; reflexivity. Qed.

(** C5, amended.  For a tenant identifier free of dollar signs, and a
    stored issuer that is a non-empty string, [getIssuer] returns the
    stored template with the first [{tenantid}] replaced by the
    identifier.  For every tenant identifier it throws the not-configured
    error when the stored issuer is unset or empty: on a new object, and
    still after a [getKey] whose refresh, if one runs, fails at hop 1. *)
Theorem getIssuer_substitutes_tenant
        (toBase64 : string -> string) (getPem : string -> string -> string)
        (o : OpenIdMetadata) (tenantId : string) :
  (forall template,
      issuer o = Some template -> template <> "" ->
      JS.dollar_free tenantId = true ->
      getIssuer o tenantId = inr (substitute_placeholder template tenantId))
  /\ (JS.truthy (issuer o) = false -> getIssuer o tenantId = inl NotConfigured)
  /\ (forall u, getIssuer (constructor u) tenantId = inl NotConfigured)
  /\ (forall keyId s,
        issuer (this s) = None ->
        (lastUpdated (this s)
           < clock (world s) (ticks (world s)) - 1000 * 60 * 60 * 24 * 5 ->
         hop_fails (hop1 s)) ->
        getIssuer (this (snd (getKey toBase64 getPem keyId s))) tenantId
        = inl NotConfigured).
Proof.
  split; [|split; [|split]].
  - intros template. apply getIssuer_literal.
  - apply getIssuer_throws_iff.
  - reflexivity.
  - intros keyId s E H. rewrite getKey_hop1_fails_this by exact H.
    now apply getIssuer_never_fetched.
Qed.

Lemma getIssuer_substitutes_tenant_witness :
  getIssuer Scenario.loaded "tenant1" = inr "https://login/tenant1/v2"
  /\ getIssuer
       (this (snd (getKey Scenario.toBase64 Scenario.getPem "abc"
                          (Scenario.fresh Scenario.offline))))
       "tenant1"
     = inl NotConfigured.
Proof.
  destruct (getIssuer_substitutes_tenant Scenario.toBase64 Scenario.getPem
              Scenario.loaded "tenant1") as [Hsubst [_ [_ Hnever]]].
  split.
  - apply (Hsubst "https://login/{tenantid}/v2").
    + reflexivity.
    + discriminate.
    + reflexivity.
  - apply (Hnever "abc" (Scenario.fresh Scenario.offline)).
    + reflexivity.
    + intros _. exact I.
Defined.

(** C5 as stated fails: both hops of the refresh succeed, the discovery
    document has the empty string as its issuer, and [getIssuer] throws
    instead of returning the stored template. *)
Lemma getIssuer_throws_on_fetched_empty_issuer :
  hop_succeeds (hop1 (Scenario.fresh Scenario.emptyIssuerOnline))
               Scenario.emptyIssuerConfig
  /\ hop_succeeds (hop2 (Scenario.fresh Scenario.emptyIssuerOnline)
                        Scenario.emptyIssuerConfig)
                  Scenario.jwks
  /\ issuer (this (snd (getKey Scenario.toBase64 Scenario.getPem "abc"
                               (Scenario.fresh Scenario.emptyIssuerOnline))))
     = Some ""
  /\ getIssuer
       (this (snd (getKey Scenario.toBase64 Scenario.getPem "abc"
                          (Scenario.fresh Scenario.emptyIssuerOnline))))
       "tenant1"
     = inl NotConfigured.
Proof.
  repeat split.
  - exists 200. split; [reflexivity | lia].
  - exists 200. split; [reflexivity | lia].
Qed.

(** C10, at a tenant identifier with a replacement pattern.  With the
    template [https://{tenantid}.login/{tenantid}/v2] and the tenant
    identifier [$$], [getIssuer] puts a single dollar sign in the place of
    the first placeholder, not the identifier; the second placeholder is
    returned as it is. *)
Theorem getIssuer_first_occurrence_replacement_pattern :
  getIssuer Scenario.twoPlaceholders "$$"
  = inr "https://$.login/{tenantid}/v2"
  /\ substitute_placeholder "https://{tenantid}.login/{tenantid}/v2" "$$"
     = "https://$$.login/{tenantid}/v2".
Proof. split; reflexivity. Qed.

(** * Further properties *)

(** ** What the search returns *)

(** A search that finds something found the first record with the [kid],
    and that record has a non-empty [n] and a non-empty [e]. *)
Lemma findKey_loop_found
      (toBase64 : string -> string) (getPem : string -> string -> string)
      (ks : list IKey.t) (keyId : string) (found : IOpenIdMetadataKey.t) :
  findKey_loop toBase64 getPem ks keyId = Some found ->
  exists k n e,
    first_with_kid ks keyId k
    /\ IKey.n k = Some n /\ n <> "" /\ IKey.e k = Some e /\ e <> ""
    /\ found = IOpenIdMetadataKey.mk (getPem (toBase64 n) e)
                                     (IKey.endorsements k).
Proof.
  induction ks as [|k ks IH]; cbn [findKey_loop]; [discriminate|].
  destruct (JS.strict_eq (IKey.kid k) keyId) eqn:Ekid.
  - assert (Hk : IKey.kid k = Some keyId).
    { destruct (IKey.kid k) as [k0|]; [|discriminate]. simpl in Ekid.
      apply String.eqb_eq in Ekid. now subst. }
    destruct (IKey.n k) as [n|] eqn:En; [|discriminate].
    destruct (IKey.e k) as [e|] eqn:Ee; [|discriminate].
    simpl. destruct (String.eqb_spec n ""); [discriminate|].
    destruct (String.eqb_spec e ""); [discriminate|].
    simpl. intros [= <-]. exists k, n, e.
    split; [|auto 6].
    exists [], ks. split; [reflexivity | split; [intros k' [] | exact Hk]].
  - intros H. destruct (IH H) as [k1 [n [e [[pre [post [E [Hpre Hk1]]]] Hrest]]]].
    exists k1, n, e. split; [|exact Hrest].
    exists (k :: pre), post. subst ks. repeat split; auto.
    intros k' [<-|Hin]; [|now apply Hpre].
    intros Hk. rewrite Hk in Ekid. simpl in Ekid.
    now rewrite String.eqb_refl in Ekid.
Qed.

(** X1. When the first record with the [kid] asked for, in the cache that
    the call leaves, has a non-empty [n] and a non-empty [e], [getKey]
    hands over the PEM made from [toBase64(n)] and [e] together with the
    endorsements of that record, absent ones included. *)
Theorem getKey_resolves_rsa_key
        (toBase64 : string -> string) (getPem : string -> string -> string)
        (keyId : string) (s : Sys) (ks : list IKey.t) (k : IKey.t)
        (n e : string) :
  keys (this (snd (getKey toBase64 getPem keyId s))) = Some ks ->
  first_with_kid ks keyId k ->
  IKey.n k = Some n -> n <> "" ->
  IKey.e k = Some e -> e <> "" ->
  fst (getKey toBase64 getPem keyId s)
  = Some (IOpenIdMetadataKey.mk (getPem (toBase64 n) e) (IKey.endorsements k)).
Proof.
  intros E [pre [post [-> [Hpre Hk]]]] Hn Hn' He He'.
  rewrite getKey_result. unfold findKey. rewrite E.
  now apply findKey_loop_first_rsa.
Qed.

Lemma getKey_resolves_rsa_key_witness :
  fst (getKey Scenario.toBase64 Scenario.getPem "abc"
              (Scenario.fresh Scenario.online))
  = Some (IOpenIdMetadataKey.mk
            (Scenario.getPem
               "sXchDaQebHnPiGvyDOAT4saGEUetSyo9MKLOoWFsueri23bOdgWp4Dy1Wl"
               "AQAB")
            None).
Proof.
  apply (getKey_resolves_rsa_key Scenario.toBase64 Scenario.getPem "abc"
           (Scenario.fresh Scenario.online)
           [Scenario.rsaKey; Scenario.ecKey] Scenario.rsaKey).
  - reflexivity.
  - exists [], [Scenario.ecKey]. repeat split. intros k' [].
  - reflexivity.
  - discriminate.
  - reflexivity.
  - discriminate.
Defined.

(** X2. [getKey] hands over a key only from the cache: when its result is
    not [null], the cache that the call leaves holds a record with the
    [kid] asked for, the first such record has a non-empty [n] and a
    non-empty [e], and the result is made from that record. *)
Theorem getKey_result_comes_from_cache
        (toBase64 : string -> string) (getPem : string -> string -> string)
        (keyId : string) (s : Sys) (found : IOpenIdMetadataKey.t) :
  fst (getKey toBase64 getPem keyId s) = Some found ->
  exists ks k n e,
    keys (this (snd (getKey toBase64 getPem keyId s))) = Some ks
    /\ first_with_kid ks keyId k
    /\ IKey.n k = Some n /\ n <> "" /\ IKey.e k = Some e /\ e <> ""
    /\ found = IOpenIdMetadataKey.mk (getPem (toBase64 n) e)
                                     (IKey.endorsements k).
Proof.
  rewrite getKey_result. unfold findKey.
  destruct (keys (this (snd (getKey toBase64 getPem keyId s)))) as [ks|];
    [|discriminate].
  intros H. destruct (findKey_loop_found _ _ _ _ _ H) as [k [n [e Hk]]].
  exists ks, k, n, e. split; [reflexivity | exact Hk].
Qed.

Lemma getKey_result_comes_from_cache_witness :
  exists ks k,
    keys (this (snd (getKey Scenario.toBase64 Scenario.getPem "abc"
                            (Scenario.fresh Scenario.online)))) = Some ks
    /\ first_with_kid ks "abc" k.
Proof.
  destruct (getKey_result_comes_from_cache Scenario.toBase64 Scenario.getPem
              "abc" (Scenario.fresh Scenario.online) _ eq_refl)
    as [ks [k [n [e [Hks [Hfirst _]]]]]].
  exists ks, k. split; [exact Hks | exact Hfirst].
Defined.

(** X3. The records that follow a record with the [kid] asked for are
    never looked at: replacing them by any others, duplicates of the [kid]
    included, leaves the result of the search as it is. *)
Theorem findKey_ignores_later_records
        (toBase64 : string -> string) (getPem : string -> string -> string)
        (o : OpenIdMetadata) (keyId : string)
        (pre post post' : list IKey.t) (k : IKey.t) :
  IKey.kid k = Some keyId ->
  keys o = Some (pre ++ k :: post)%list ->
  findKey toBase64 getPem o keyId
  = findKey toBase64 getPem
      (mkOpenIdMetadata (url o) (lastUpdated o)
                        (Some (pre ++ k :: post')%list) (issuer o))
      keyId.
Proof.
  intros Hk E. unfold findKey. rewrite E. cbn [keys]. clear E.
  induction pre as [|k0 pre IH]; cbn [app findKey_loop].
  - now rewrite Hk, strict_eq_true.
  - now rewrite IH.
Qed.

Lemma findKey_ignores_later_records_witness :
  findKey Scenario.toBase64 Scenario.getPem Scenario.loaded "abc"
  = findKey Scenario.toBase64 Scenario.getPem
      (mkOpenIdMetadata Scenario.discoveryURL Scenario.startOfDay
                        (Some [Scenario.rsaKey; Cases.shadowed])
                        (Some "https://login/{tenantid}/v2"))
      "abc".
Proof.
  apply (findKey_ignores_later_records Scenario.toBase64 Scenario.getPem
           Scenario.loaded "abc" [] [Scenario.ecKey] [Cases.shadowed]
           Scenario.rsaKey).
  - reflexivity.
  - reflexivity.
Defined.

(** X4. The search reads [kid], [n], [e] and [endorsements] and nothing
    else: two caches whose records agree on these four, one by one, give
    the same result, whatever [kty], [use], [x5t] and [x5c] say. *)
Theorem findKey_reads_four_properties
        (toBase64 : string -> string) (getPem : string -> string -> string)
        (ks ks' : list IKey.t) (keyId : string) :
  Forall2 same_material ks ks' ->
  findKey_loop toBase64 getPem ks keyId
  = findKey_loop toBase64 getPem ks' keyId.
Proof.
  induction 1 as [|k k' ks ks' [Hkid [Hn [He Hend]]] _ IH];
    cbn [findKey_loop]; [reflexivity|].
  now rewrite Hkid, Hn, He, Hend, IH.
Qed.

Lemma findKey_reads_four_properties_witness :
  findKey_loop Scenario.toBase64 Scenario.getPem
               [Scenario.rsaKey; Scenario.ecKey] "abc"
  = findKey_loop Scenario.toBase64 Scenario.getPem
                 [Cases.relabelled; Scenario.ecKey] "abc".
Proof.
  apply (findKey_reads_four_properties Scenario.toBase64 Scenario.getPem).
  repeat constructor.
Defined.

(** ** How calls compose *)

(** [refreshCache] in one equation: what it reports and what it leaves,
    by the outcome of the two checks. *)
Lemma refreshCache_unfold (s : Sys) :
  refreshCache s
  = match checked "Failed to load openID config: " (hop1 s) with
    | inl err =>
        (Some err, mkSys (this s) (sent (Some (url (this s))) (world s)))
    | inr openIdConfig =>
        let o := mkOpenIdMetadata (url (this s)) (lastUpdated (this s))
                                  (keys (this s)) (Body.issuer openIdConfig) in
        let w := sent (Body.jwks_uri openIdConfig)
                      (sent (Some (url (this s))) (world s)) in
        match checked "Failed to load Keys: " (hop2 s openIdConfig) with
        | inl err => (Some err, mkSys o w)
        | inr body =>
            (None,
             mkSys (mkOpenIdMetadata (url (this s))
                                     (clock (world s) (ticks (world s)))
                                     (Body.keys body)
                                     (Body.issuer openIdConfig))
                   (tick w))
        end
    end.
Proof.
  unfold refreshCache, bind, get_this, request, ret, set_issuer,
    set_lastUpdated, set_keys, modify_this, Date_getTime.
  fold (hop1 s).
  destruct (checked "Failed to load openID config: " (hop1 s))
    as [err|openIdConfig]; [reflexivity|].
  cbn [this world].
  replace (network _ _ _) with (hop2 s openIdConfig).
  - now destruct (checked "Failed to load Keys: " (hop2 s openIdConfig)).
  - unfold hop2, sent. cbn [network requests].
    rewrite length_app, Nat.add_1_r. reflexivity.
Qed.

Lemma checked_answered_fails (what : string) (statusCode : Z)
      (body : option Body.t) :
  hop_fails (Answered statusCode body) ->
  checked what (Answered statusCode body)
  = inl (new_Error (what ++ JS.Number_toString statusCode)).
Proof.
  destruct body as [body|]; simpl; [|reflexivity].
  intros [H|H]; [|discriminate].
  destruct (statusCode >=? 400) eqn:E; [reflexivity|].
  rewrite Z.geb_leb in E. apply Z.leb_gt in E. lia.
Qed.

(** The world of [getKey] after a refresh that reported [err]. *)
Lemma getKey_stale_world
      (toBase64 : string -> string) (getPem : string -> string -> string)
      (keyId : string) (s : Sys) :
  stale s ->
  requests (world (snd (getKey toBase64 getPem keyId s)))
  = requests (world (snd (refreshCache (mkSys (this s) (tick (world s))))))
  /\ this (snd (getKey toBase64 getPem keyId s))
     = this (snd (refreshCache (mkSys (this s) (tick (world s)))))
  /\ clock (world (snd (getKey toBase64 getPem keyId s)))
     = clock (world (snd (refreshCache (mkSys (this s) (tick (world s))))))
  /\ ticks (world (snd (getKey toBase64 getPem keyId s)))
     = ticks (world (snd (refreshCache (mkSys (this s) (tick (world s))))))
  /\ network (world (snd (getKey toBase64 getPem keyId s)))
     = network (world (snd (refreshCache (mkSys (this s) (tick (world s)))))).
Proof.
  intros H. rewrite getKey_stale by exact H. cbn [snd this world].
  destruct (refreshCache (mkSys (this s) (tick (world s)))) as [[err|] s1];
    repeat split.
Qed.

(** X5. On a new object the first [getKey] runs the refresh, and asks for
    the url given to the constructor, exactly when the clock reads more
    than 432000000; at an earlier reading it requests nothing, leaves the
    object new and hands over [null]. *)
Theorem getKey_on_new_object
        (toBase64 : string -> string) (getPem : string -> string -> string)
        (keyId u : string) (w : World) :
  (432000000 < clock w (ticks w) ->
   exists rest,
     requests (world (snd (getKey toBase64 getPem keyId
                                  (mkSys (constructor u) w))))
     = (requests w ++ Some u :: rest)%list)
  /\ (clock w (ticks w) <= 432000000 ->
      fst (getKey toBase64 getPem keyId (mkSys (constructor u) w)) = None
      /\ this (snd (getKey toBase64 getPem keyId (mkSys (constructor u) w)))
         = constructor u
      /\ requests (world (snd (getKey toBase64 getPem keyId
                                      (mkSys (constructor u) w))))
         = requests w).
Proof.
  split; intros H.
  - assert (Hs : stale (mkSys (constructor u) w)).
    { unfold stale. cbn [this world constructor lastUpdated]. lia. }
    destruct (getKey_stale_world toBase64 getPem keyId _ Hs) as [-> _].
    apply (refreshCache_requests (mkSys (constructor u) (tick w))).
  - rewrite getKey_fresh;
      [repeat split | cbn [this world constructor lastUpdated]; lia].
Qed.

Lemma getKey_on_new_object_witness :
  (exists rest,
      requests (world (snd (getKey Scenario.toBase64 Scenario.getPem "abc"
                                   (Scenario.fresh Scenario.online))))
      = Some Scenario.discoveryURL :: rest)
  /\ fst (getKey Scenario.toBase64 Scenario.getPem "abc"
                 (mkSys (constructor Scenario.discoveryURL)
                        (mkWorld (Scenario.clockFrom 0) 0 Scenario.online
                                 [] [])))
     = None.
Proof.
  split.
  - apply (getKey_on_new_object Scenario.toBase64 Scenario.getPem "abc"
             Scenario.discoveryURL (Scenario.worldOf Scenario.online)).
    reflexivity.
  - apply (getKey_on_new_object Scenario.toBase64 Scenario.getPem "abc"
             Scenario.discoveryURL
             (mkWorld (Scenario.clockFrom 0) 0 Scenario.online [] [])).
    discriminate.
Defined.

(** X6. The requests of one [getKey], in order: none within the freshness
    window; the discovery url alone when the refresh fails at hop 1; the
    discovery url and then the [jwks_uri] of the discovery document when
    hop 1 succeeds, whatever hop 2 does.  So a call makes at most two
    requests and never asks for keys after a failed discovery. *)
Theorem getKey_requests
        (toBase64 : string -> string) (getPem : string -> string -> string)
        (keyId : string) (s : Sys) :
  (~ stale s ->
   requests (world (snd (getKey toBase64 getPem keyId s)))
   = requests (world s))
  /\ (stale s -> hop_fails (hop1 s) ->
      requests (world (snd (getKey toBase64 getPem keyId s)))
      = (requests (world s) ++ [Some (url (this s))])%list)
  /\ (forall openIdConfig,
        stale s -> hop_succeeds (hop1 s) openIdConfig ->
        requests (world (snd (getKey toBase64 getPem keyId s)))
        = (requests (world s)
             ++ [Some (url (this s)); Body.jwks_uri openIdConfig])%list).
Proof.
  split; [|split].
  - intros H. rewrite getKey_fresh; [reflexivity|]. unfold stale in H. lia.
  - intros Hs H1. destruct (getKey_stale_world toBase64 getPem keyId s Hs)
      as [-> _].
    now destruct (refreshCache_hop1_fails (mkSys (this s) (tick (world s))) H1)
      as [err ->].
  - intros openIdConfig Hs H1.
    destruct (getKey_stale_world toBase64 getPem keyId s Hs) as [-> _].
    destruct (hop_fails_or_succeeds (hop2 s openIdConfig)) as [H2|[body H2]].
    + destruct (refreshCache_hop2_fails (mkSys (this s) (tick (world s)))
                  openIdConfig H1 H2) as [err ->].
      cbn [snd world sent tick requests this]. now rewrite <- app_assoc.
    + rewrite (refreshCache_succeeds (mkSys (this s) (tick (world s)))
                 openIdConfig body H1 H2).
      cbn [snd world sent tick requests this]. now rewrite <- app_assoc.
Qed.

Lemma getKey_requests_witness :
  requests (world (snd (getKey Scenario.toBase64 Scenario.getPem "abc"
                               (Scenario.fresh Scenario.offline))))
  = [Some Scenario.discoveryURL]
  /\ requests (world (snd (getKey Scenario.toBase64 Scenario.getPem "abc"
                                  (Scenario.fresh Scenario.keysDown))))
     = [Some Scenario.discoveryURL; Some "https://login/keys"].
Proof.
  destruct (getKey_requests Scenario.toBase64 Scenario.getPem "abc"
              (Scenario.fresh Scenario.offline)) as [_ [Hone _]].
  destruct (getKey_requests Scenario.toBase64 Scenario.getPem "abc"
              (Scenario.fresh Scenario.keysDown)) as [_ [_ Htwo]].
  split.
  - apply Hone; [reflexivity | exact I].
  - apply (Htwo Scenario.openIdConfig); [reflexivity|].
    exists 200. split; [reflexivity | lia].
Defined.

(** A failing refresh leaves the object, the clock and the count of its
    readings as they were. *)
Lemma refreshCache_fails_frame (s : Sys) :
  refresh_fails s ->
  lastUpdated (this (snd (refreshCache s))) = lastUpdated (this s)
  /\ url (this (snd (refreshCache s))) = url (this s)
  /\ clock (world (snd (refreshCache s))) = clock (world s)
  /\ ticks (world (snd (refreshCache s))) = ticks (world s).
Proof.
  intros [H1|[openIdConfig [H1 H2]]].
  - now destruct (refreshCache_hop1_fails s H1) as [err ->].
  - now destruct (refreshCache_hop2_fails s _ H1 H2) as [err ->].
Qed.

(** X7. A failed refresh is not remembered: after a [getKey] whose
    refresh failed, on a clock that never runs backwards, the cache is
    still older than five days, and the next [getKey] runs the refresh
    again, asking for the discovery url first. *)
Theorem getKey_retries_after_failed_refresh
        (toBase64 : string -> string) (getPem : string -> string -> string)
        (keyId keyId' : string) (s : Sys) :
  monotone (clock (world s)) ->
  stale s ->
  refresh_fails s ->
  stale (snd (getKey toBase64 getPem keyId s))
  /\ exists rest,
      requests (world (snd (getKey toBase64 getPem keyId'
                              (snd (getKey toBase64 getPem keyId s)))))
      = (requests (world (snd (getKey toBase64 getPem keyId s)))
           ++ Some (url (this s)) :: rest)%list.
Proof.
  intros Hmono Hs Hfail.
  destruct (getKey_stale_world toBase64 getPem keyId s Hs)
    as [_ [Hthis [Hclock [Hticks _]]]].
  destruct (refreshCache_fails_frame (mkSys (this s) (tick (world s))) Hfail)
    as [Hl [Hu [Hc Ht]]].
  cbn [this world tick clock ticks] in Hl, Hu, Hc, Ht.
  assert (Hs' : stale (snd (getKey toBase64 getPem keyId s))).
  { unfold stale in *. rewrite Hthis, Hclock, Hticks, Hl, Hc, Ht.
    pose proof (Hmono (ticks (world s)) (S (ticks (world s)))
                      (Nat.le_succ_diag_r _)).
    lia. }
  split; [exact Hs'|].
  destruct (getKey_stale_world toBase64 getPem keyId' _ Hs') as [-> _].
  destruct (refreshCache_requests
              (mkSys (this (snd (getKey toBase64 getPem keyId s)))
                     (tick (world (snd (getKey toBase64 getPem keyId s))))))
    as [rest E].
  exists rest. rewrite E. cbn [this world tick requests].
  now rewrite Hthis, Hu.
Qed.

Lemma getKey_retries_after_failed_refresh_witness :
  exists rest,
    requests (world (snd (getKey Scenario.toBase64 Scenario.getPem "xyz"
       (snd (getKey Scenario.toBase64 Scenario.getPem "abc"
                    (Scenario.fresh Scenario.offline))))))
    = (requests (world (snd (getKey Scenario.toBase64 Scenario.getPem "abc"
                                    (Scenario.fresh Scenario.offline))))
         ++ Some Scenario.discoveryURL :: rest)%list.
Proof.
  apply (getKey_retries_after_failed_refresh
           Scenario.toBase64 Scenario.getPem "abc" "xyz"
           (Scenario.fresh Scenario.offline)).
  - intros i j Hij. unfold Scenario.fresh, Scenario.worldOf, Scenario.clockFrom.
    cbn [world clock]. lia.
  - reflexivity.
  - left. exact I.
Defined.

(** X8. After a [getKey] whose refresh succeeded, a [getKey] that reads
    the clock no more than five days after the refresh requests nothing,
    leaves the object as it is and searches the keys of the body of
    hop 2. *)
Theorem getKey_after_refresh_uses_new_cache
        (toBase64 : string -> string) (getPem : string -> string -> string)
        (keyId keyId' : string) (s : Sys) (openIdConfig body : Body.t) :
  stale s ->
  hop_succeeds (hop1 s) openIdConfig ->
  hop_succeeds (hop2 s openIdConfig) body ->
  clock (world s) (S (S (ticks (world s)))) - 1000 * 60 * 60 * 24 * 5
    <= clock (world s) (S (ticks (world s))) ->
  fst (getKey toBase64 getPem keyId' (snd (getKey toBase64 getPem keyId s)))
  = match Body.keys body with
    | Some ks => findKey_loop toBase64 getPem ks keyId'
    | None => None
    end
  /\ requests (world (snd (getKey toBase64 getPem keyId'
                             (snd (getKey toBase64 getPem keyId s)))))
     = requests (world (snd (getKey toBase64 getPem keyId s)))
  /\ this (snd (getKey toBase64 getPem keyId'
                  (snd (getKey toBase64 getPem keyId s))))
     = this (snd (getKey toBase64 getPem keyId s)).
Proof.
  intros Hs H1 H2 Hnext.
  rewrite (getKey_stale toBase64 getPem keyId s Hs).
  rewrite (refreshCache_succeeds (mkSys (this s) (tick (world s)))
             openIdConfig body H1 H2).
  cbn [fst snd this world tick sent clock ticks].
  rewrite getKey_fresh by (cbn [this world clock ticks lastUpdated]; exact Hnext).
  repeat split.
Qed.

Lemma getKey_after_refresh_uses_new_cache_witness :
  fst (getKey Scenario.toBase64 Scenario.getPem "abc"
         (snd (getKey Scenario.toBase64 Scenario.getPem "ec1"
                      (Scenario.fresh Scenario.online))))
  = findKey_loop Scenario.toBase64 Scenario.getPem
                 [Scenario.rsaKey; Scenario.ecKey] "abc"
  /\ requests (world (snd (getKey Scenario.toBase64 Scenario.getPem "abc"
         (snd (getKey Scenario.toBase64 Scenario.getPem "ec1"
                      (Scenario.fresh Scenario.online))))))
     = [Some Scenario.discoveryURL; Some "https://login/keys"].
Proof.
  assert (H1 : hop_succeeds (hop1 (Scenario.fresh Scenario.online))
                            Scenario.openIdConfig).
  { exists 200. split; [reflexivity | lia]. }
  assert (H2 : hop_succeeds (hop2 (Scenario.fresh Scenario.online)
                                  Scenario.openIdConfig) Scenario.jwks).
  { exists 200. split; [reflexivity | lia]. }
  assert (Hs : stale (Scenario.fresh Scenario.online)) by reflexivity.
  assert (Hnext : clock (world (Scenario.fresh Scenario.online))
                    (S (S (ticks (world (Scenario.fresh Scenario.online)))))
                  - 1000 * 60 * 60 * 24 * 5
                  <= clock (world (Scenario.fresh Scenario.online))
                       (S (ticks (world (Scenario.fresh Scenario.online))))).
  { vm_compute. discriminate. }
  destruct (getKey_after_refresh_uses_new_cache
              Scenario.toBase64 Scenario.getPem "ec1" "abc"
              (Scenario.fresh Scenario.online) _ _ Hs H1 H2 Hnext)
    as [Hres [Hreq _]].
  split; [exact Hres | exact Hreq].
Defined.

(** X9. A hop 2 that succeeds with a body without a [keys] property
    empties the cache: the keys cached before are gone, the [getKey] that
    ran the refresh hands over [null] for every [kid], and the timestamp
    is the reading of the clock taken at the refresh, so the empty cache
    counts as fresh. *)
Theorem refresh_without_keys_empties_cache
        (toBase64 : string -> string) (getPem : string -> string -> string)
        (keyId : string) (s : Sys) (openIdConfig body : Body.t) :
  stale s ->
  hop_succeeds (hop1 s) openIdConfig ->
  hop_succeeds (hop2 s openIdConfig) body ->
  Body.keys body = None ->
  fst (getKey toBase64 getPem keyId s) = None
  /\ keys (this (snd (getKey toBase64 getPem keyId s))) = None
  /\ lastUpdated (this (snd (getKey toBase64 getPem keyId s)))
     = clock (world s) (S (ticks (world s))).
Proof.
  intros Hs H1 H2 E.
  rewrite (getKey_stale toBase64 getPem keyId s Hs).
  rewrite (refreshCache_succeeds (mkSys (this s) (tick (world s)))
             openIdConfig body H1 H2).
  cbn [fst snd this world tick clock ticks keys lastUpdated].
  unfold findKey. cbn [keys]. now rewrite E.
Qed.

Lemma refresh_without_keys_empties_cache_witness :
  findKey Scenario.toBase64 Scenario.getPem Scenario.loaded "abc" <> None
  /\ fst (getKey Scenario.toBase64 Scenario.getPem "abc"
                 (Cases.aged Cases.keysMissing (6 * Cases.aDay)))
     = None.
Proof.
  split; [discriminate|].
  apply (refresh_without_keys_empties_cache
           Scenario.toBase64 Scenario.getPem "abc"
           (Cases.aged Cases.keysMissing (6 * Cases.aDay))
           Scenario.openIdConfig Cases.noKeys).
  - reflexivity.
  - exists 200. split; [reflexivity | lia].
  - exists 200. split; [reflexivity | lia].
  - reflexivity.
Defined.

(** The console after a [getKey] whose cache is stale, by what the
    refresh reports. *)
Lemma getKey_stale_console
      (toBase64 : string -> string) (getPem : string -> string -> string)
      (keyId : string) (s : Sys) :
  stale s ->
  console (world (snd (getKey toBase64 getPem keyId s)))
  = match fst (refreshCache (mkSys (this s) (tick (world s)))) with
    | Some err => (console (world s) ++ [refresh_error_line (this s) err])%list
    | None => console (world s)
    end.
Proof.
  intros H. rewrite getKey_stale by exact H. cbn [snd world].
  pose proof (refreshCache_console (mkSys (this s) (tick (world s)))) as E.
  cbn [world tick console] in E.
  destruct (refreshCache (mkSys (this s) (tick (world s)))) as [[err|] s1];
    cbn [fst snd] in *; [cbn [logged console]|]; now rewrite E.
Qed.

(** X10. What [getKey] writes to the console.  A transport error of either
    hop is written as it is; a hop answered with a status of 400 or more,
    or with an empty body, is written as [Failed to load openID config:]
    (hop 1) or [Failed to load Keys:] (hop 2) followed by the status.
    Nothing is written when both hops succeed or when no refresh runs. *)
Theorem getKey_console
        (toBase64 : string -> string) (getPem : string -> string -> string)
        (keyId : string) (s : Sys) :
  (forall err,
      stale s -> hop1 s = Failed err ->
      console (world (snd (getKey toBase64 getPem keyId s)))
      = (console (world s)
           ++ [("Error retrieving OpenId metadata at " ++ url (this s)
                 ++ ", error: " ++ Error.toString err)%string])%list)
  /\ (forall statusCode body,
        stale s -> hop1 s = Answered statusCode body ->
        400 <= statusCode \/ body = None ->
        console (world (snd (getKey toBase64 getPem keyId s)))
        = (console (world s)
             ++ [("Error retrieving OpenId metadata at " ++ url (this s)
                   ++ ", error: Error: Failed to load openID config: "
                   ++ JS.Number_toString statusCode)%string])%list)
  /\ (forall openIdConfig err,
        stale s -> hop_succeeds (hop1 s) openIdConfig ->
        hop2 s openIdConfig = Failed err ->
        console (world (snd (getKey toBase64 getPem keyId s)))
        = (console (world s)
             ++ [("Error retrieving OpenId metadata at " ++ url (this s)
                   ++ ", error: " ++ Error.toString err)%string])%list)
  /\ (forall openIdConfig statusCode body,
        stale s -> hop_succeeds (hop1 s) openIdConfig ->
        hop2 s openIdConfig = Answered statusCode body ->
        400 <= statusCode \/ body = None ->
        console (world (snd (getKey toBase64 getPem keyId s)))
        = (console (world s)
             ++ [("Error retrieving OpenId metadata at " ++ url (this s)
                   ++ ", error: Error: Failed to load Keys: "
                   ++ JS.Number_toString statusCode)%string])%list)
  /\ (forall openIdConfig body,
        stale s -> hop_succeeds (hop1 s) openIdConfig ->
        hop_succeeds (hop2 s openIdConfig) body ->
        console (world (snd (getKey toBase64 getPem keyId s)))
        = console (world s))
  /\ (~ stale s ->
      console (world (snd (getKey toBase64 getPem keyId s)))
      = console (world s)).
Proof.
  split; [|split; [|split; [|split; [|split]]]].
  - intros err Hs H1. rewrite getKey_stale_console by exact Hs.
    rewrite refreshCache_unfold.
    change (hop1 (mkSys (this s) (tick (world s)))) with (hop1 s).
    rewrite H1. reflexivity.
  - intros statusCode body Hs H1 Hf. rewrite getKey_stale_console by exact Hs.
    rewrite refreshCache_unfold.
    change (hop1 (mkSys (this s) (tick (world s)))) with (hop1 s).
    rewrite H1, checked_answered_fails by exact Hf. reflexivity.
  - intros openIdConfig err Hs H1 H2.
    rewrite getKey_stale_console by exact Hs. rewrite refreshCache_unfold.
    change (hop1 (mkSys (this s) (tick (world s)))) with (hop1 s).
    rewrite (checked_succeeds _ _ _ H1). cbv zeta.
    change (hop2 (mkSys (this s) (tick (world s))) openIdConfig)
      with (hop2 s openIdConfig).
    rewrite H2. reflexivity.
  - intros openIdConfig statusCode body Hs H1 H2 Hf.
    rewrite getKey_stale_console by exact Hs. rewrite refreshCache_unfold.
    change (hop1 (mkSys (this s) (tick (world s)))) with (hop1 s).
    rewrite (checked_succeeds _ _ _ H1). cbv zeta.
    change (hop2 (mkSys (this s) (tick (world s))) openIdConfig)
      with (hop2 s openIdConfig).
    rewrite H2, checked_answered_fails by exact Hf. reflexivity.
  - intros openIdConfig body Hs H1 H2.
    rewrite getKey_stale_console by exact Hs.
    now rewrite (refreshCache_succeeds (mkSys (this s) (tick (world s)))
                   openIdConfig body H1 H2).
  - intros H. rewrite getKey_fresh; [reflexivity|]. unfold stale in H. lia.
Qed.

Lemma getKey_console_witness :
  console (world (snd (getKey Scenario.toBase64 Scenario.getPem "abc"
                              (Scenario.fresh Cases.notFound))))
  = ["Error retrieving OpenId metadata at https://login/.well-known/openid-configuration, error: Error: Failed to load openID config: 404"]
  /\ console (world (snd (getKey Scenario.toBase64 Scenario.getPem "abc"
                                 (Scenario.fresh Scenario.keysDown))))
     = ["Error retrieving OpenId metadata at https://login/.well-known/openid-configuration, error: Error: Failed to load Keys: 503"].
Proof.
  destruct (getKey_console Scenario.toBase64 Scenario.getPem "abc"
              (Scenario.fresh Cases.notFound)) as [_ [Hconfig _]].
  destruct (getKey_console Scenario.toBase64 Scenario.getPem "abc"
              (Scenario.fresh Scenario.keysDown)) as [_ [_ [_ [Hkeys _]]]].
  split.
  - apply (Hconfig 404 (Some Scenario.openIdConfig)).
    + reflexivity.
    + reflexivity.
    + left. lia.
  - apply (Hkeys Scenario.openIdConfig 503 None).
    + reflexivity.
    + exists 200. split; [reflexivity | lia].
    + reflexivity.
    + right. reflexivity.
Defined.

(** X11. What one [getKey] can change of the object.  The url never
    changes.  The issuer changes only in a refresh whose hop 1 succeeds.
    The keys change only in a refresh whose two hops succeed, and then the
    timestamp is set in the same call: keys and timestamp move together. *)
Theorem getKey_frame
        (toBase64 : string -> string) (getPem : string -> string -> string)
        (keyId : string) (s : Sys) :
  url (this (snd (getKey toBase64 getPem keyId s))) = url (this s)
  /\ (issuer (this (snd (getKey toBase64 getPem keyId s))) <> issuer (this s) ->
      stale s
      /\ exists openIdConfig,
          hop_succeeds (hop1 s) openIdConfig
          /\ issuer (this (snd (getKey toBase64 getPem keyId s)))
             = Body.issuer openIdConfig)
  /\ (keys (this (snd (getKey toBase64 getPem keyId s))) <> keys (this s) ->
      stale s
      /\ exists openIdConfig body,
          hop_succeeds (hop1 s) openIdConfig
          /\ hop_succeeds (hop2 s openIdConfig) body
          /\ keys (this (snd (getKey toBase64 getPem keyId s)))
             = Body.keys body
          /\ lastUpdated (this (snd (getKey toBase64 getPem keyId s)))
             = clock (world s) (S (ticks (world s)))).
Proof.
  destruct (Z_lt_le_dec (lastUpdated (this s))
              (clock (world s) (ticks (world s)) - 1000 * 60 * 60 * 24 * 5))
    as [Hs|Hfresh].
  - rewrite getKey_stale by exact Hs. cbn [snd this].
    destruct (hop_fails_or_succeeds (hop1 s)) as [H1|[openIdConfig H1]].
    + destruct (refreshCache_hop1_fails (mkSys (this s) (tick (world s))) H1)
        as [err ->].
      cbn [snd this]. split; [reflexivity|]. split; intros H; now contradiction H.
    + destruct (hop_fails_or_succeeds (hop2 s openIdConfig)) as [H2|[body H2]].
      * destruct (refreshCache_hop2_fails (mkSys (this s) (tick (world s)))
                    openIdConfig H1 H2) as [err ->].
        cbn [snd this url issuer keys]. split; [reflexivity|].
        split; intros H; [|now contradiction H].
        split; [exact Hs|]. now exists openIdConfig.
      * rewrite (refreshCache_succeeds (mkSys (this s) (tick (world s)))
                   openIdConfig body H1 H2).
        cbn [snd this url issuer keys lastUpdated world tick clock ticks].
        split; [reflexivity|]. split; intros _; (split; [exact Hs|]).
        -- now exists openIdConfig.
        -- now exists openIdConfig, body.
  - rewrite getKey_fresh by exact Hfresh. cbn [snd this].
    split; [reflexivity|]. split; intros H; now contradiction H.
Qed.

Lemma getKey_frame_witness :
  exists openIdConfig body,
    hop_succeeds (hop1 (Scenario.fresh Scenario.online)) openIdConfig
    /\ hop_succeeds (hop2 (Scenario.fresh Scenario.online) openIdConfig) body
    /\ keys (this (snd (getKey Scenario.toBase64 Scenario.getPem "abc"
                               (Scenario.fresh Scenario.online))))
       = Body.keys body.
Proof.
  destruct (getKey_frame Scenario.toBase64 Scenario.getPem "abc"
              (Scenario.fresh Scenario.online)) as [_ [_ Hkeys]].
  destruct Hkeys as [_ [openIdConfig [body [H1 [H2 [Hk _]]]]]];
    [discriminate|].
  exists openIdConfig, body. auto.
Defined.

(** ** The issuer template *)

(** [indexOf] finds nothing only when there is no occurrence. *)
Lemma indexOf_None (pat s : string) :
  ~ occurs pat s -> JS.indexOf pat s = None.
Proof.
  intros H. destruct (JS.indexOf pat s) as [i|] eqn:E; [|reflexivity].
  contradiction H.
  exists (substring 0 i s), (JS.tail_from (i + String.length pat) s).
  symmetry. now apply indexOf_split.
Qed.

(** [replace] puts the expansion of the tenant identifier where the
    substitution of the specification puts the identifier. *)
Lemma replace_as_substitution (template tenantId : string) (pos : nat) :
  JS.indexOf "{tenantid}" template = Some pos ->
  JS.replace template "{tenantid}" tenantId
  = substitute_placeholder
      template (JS.GetSubstitution "{tenantid}" template pos tenantId).
Proof.
  intros E. unfold JS.replace, substitute_placeholder. now rewrite E.
Qed.

(** X12. A stored template without the placeholder is returned as it is,
    for every tenant identifier. *)
Theorem getIssuer_without_placeholder
        (o : OpenIdMetadata) (template tenantId : string) :
  issuer o = Some template ->
  template <> "" ->
  ~ occurs "{tenantid}" template ->
  getIssuer o tenantId = inr template.
Proof.
  intros E Hne Hno. rewrite (getIssuer_returns o template tenantId E Hne).
  unfold JS.replace. now rewrite indexOf_None.
Qed.

(** X13. For every tenant identifier, replacement patterns included, the
    text before the first placeholder and the text after it are returned
    as they are: only the place of the first placeholder is rewritten, and
    with an identifier free of dollar signs it holds the identifier. *)
Theorem getIssuer_keeps_surroundings
        (o : OpenIdMetadata) (pre post tenantId : string) :
  issuer o = Some (pre ++ "{tenantid}" ++ post)%string ->
  JS.indexOf "{tenantid}" (pre ++ "{tenantid}" ++ post)
  = Some (String.length pre) ->
  exists mid,
    getIssuer o tenantId = inr (pre ++ mid ++ post)%string
    /\ (JS.dollar_free tenantId = true -> mid = tenantId).
Proof.
  intros E Hfirst.
  exists (JS.GetSubstitution "{tenantid}" (pre ++ "{tenantid}" ++ post)
                             (String.length pre) tenantId).
  split; [|apply GetSubstitution_dollar_free].
  rewrite (getIssuer_returns o _ tenantId E) by (destruct pre; discriminate).
  rewrite (replace_as_substitution _ _ _ Hfirst).
  now rewrite substitute_placeholder_first.
Qed.

Lemma getIssuer_keeps_surroundings_witness :
  exists mid,
    getIssuer Scenario.twoPlaceholders "$&$&"
    = inr ("https://" ++ mid ++ ".login/{tenantid}/v2")%string.
Proof.
  destruct (getIssuer_keeps_surroundings
              Scenario.twoPlaceholders "https://" ".login/{tenantid}/v2"
              "$&$&" eq_refl eq_refl) as [mid [Hmid _]].
  exists mid. exact Hmid.
Defined.

Lemma getIssuer_without_placeholder_witness :
  getIssuer (mkOpenIdMetadata Scenario.discoveryURL 0 None
                              (Some "https://login/common/v2"))
            "tenant1"
  = inr "https://login/common/v2".
Proof.
  apply (getIssuer_without_placeholder
           (mkOpenIdMetadata Scenario.discoveryURL 0 None
                             (Some "https://login/common/v2"))
           "https://login/common/v2" "tenant1").
  - reflexivity.
  - discriminate.
  - intros [a [b H]].
    destruct (indexOf_least "{tenantid}" a b) as [i [Hi _]].
    rewrite <- H in Hi. discriminate Hi.
Defined.

(** ** The profile dialog *)

(** X14. [getProfileCard] asks the provider once, at the fixed profile
    url, with the access token in the header [Authorization: Bearer].
    When that request is rejected the card is rejected for the same
    reason; when the answer has no body or no [user] the card is rejected
    by a [TypeError]; otherwise the card is the thumbnail card whose title
    is the [name] of the user, with one image, no buttons and a subtitle
    that are the same for every token and every answer. *)
Theorem getProfileCard_outcome
        (get : HuddleDialog.Options
               -> HuddleDialog.Promise (option HuddleDialog.ProviderProfile))
        (Attachment CardAction : Type)
        (thumbnailCard : option string -> list HuddleDialog.CardImage
                         -> list CardAction -> HuddleDialog.CardOther
                         -> Attachment)
        (accessToken : string) :
  (forall reason,
      get (HuddleDialog.mkOptions
             "https://ipd.ngrok.io/api/v3/users" true
             [("Authorization", "Bearer " ++ accessToken)])
      = HuddleDialog.Rejected reason ->
      HuddleDialog.getProfileCard get Attachment CardAction thumbnailCard
                                  accessToken
      = HuddleDialog.Rejected reason)
  /\ (forall body,
        get (HuddleDialog.mkOptions
               "https://ipd.ngrok.io/api/v3/users" true
               [("Authorization", "Bearer " ++ accessToken)])
        = HuddleDialog.Resolved body ->
        body = None
        \/ body = Some (HuddleDialog.mkProviderProfile None) ->
        HuddleDialog.getProfileCard get Attachment CardAction thumbnailCard
                                    accessToken
        = HuddleDialog.Rejected HuddleDialog.TypeError)
  /\ (forall u,
        get (HuddleDialog.mkOptions
               "https://ipd.ngrok.io/api/v3/users" true
               [("Authorization", "Bearer " ++ accessToken)])
        = HuddleDialog.Resolved
            (Some (HuddleDialog.mkProviderProfile (Some u))) ->
        HuddleDialog.getProfileCard get Attachment CardAction thumbnailCard
                                    accessToken
        = HuddleDialog.Resolved
            (thumbnailCard (HuddleDialog.user_name u)
                           [HuddleDialog.mkCardImage "https://robohash.org/ian"]
                           []
                           (HuddleDialog.mkCardOther "placeholder@example.org"))).
Proof.
  unfold HuddleDialog.getProfileCard, HuddleDialog.getProfileFromProvider,
    HuddleDialog.meProfileUrl.
  split; [|split].
  - intros reason E. now rewrite E.
  - intros body E [-> | ->]; now rewrite E.
  - intros u E. now rewrite E.
Qed.

Lemma getProfileCard_outcome_witness :
  HuddleDialog.getProfileCard Cases.provider _ unit Cases.card "secret"
  = HuddleDialog.Resolved
      (Some "Ian",
       [HuddleDialog.mkCardImage "https://robohash.org/ian"],
       [],
       HuddleDialog.mkCardOther "placeholder@example.org")
  /\ HuddleDialog.getProfileCard Cases.provider _ unit Cases.card "guess"
     = HuddleDialog.Rejected
         (HuddleDialog.RequestRejected (Error.mk "StatusCodeError" "401")).
Proof.
  destruct (getProfileCard_outcome Cases.provider _ unit Cases.card "secret")
    as [_ [_ Hcard]].
  destruct (getProfileCard_outcome Cases.provider _ unit Cases.card "guess")
    as [Hrejected _].
  split.
  - apply (Hcard (HuddleDialog.mkUser (Some "Ian"))). reflexivity.
  - apply Hrejected. reflexivity.
Defined.

(** ** Runs of calls *)

(** One [getKey] reads the clock once or twice and leaves the clock and
    the network as they are; it leaves the object as it is, or writes the
    issuer alone, or writes issuer, keys and a timestamp just read. *)
Lemma getKey_step
      (toBase64 : string -> string) (getPem : string -> string -> string)
      (keyId : string) (s : Sys) :
  clock (world (snd (getKey toBase64 getPem keyId s))) = clock (world s)
  /\ network (world (snd (getKey toBase64 getPem keyId s))) = network (world s)
  /\ (ticks (world s) < ticks (world (snd (getKey toBase64 getPem keyId s)))
      <= S (S (ticks (world s))))%nat
  /\ url (this (snd (getKey toBase64 getPem keyId s))) = url (this s)
  /\ ((lastUpdated (this (snd (getKey toBase64 getPem keyId s)))
       = lastUpdated (this s)
       /\ keys (this (snd (getKey toBase64 getPem keyId s))) = keys (this s))
      \/ (stale s
          /\ lastUpdated (this (snd (getKey toBase64 getPem keyId s)))
             = clock (world s) (S (ticks (world s)))
          /\ ticks (world (snd (getKey toBase64 getPem keyId s)))
             = S (S (ticks (world s))))).
Proof.
  destruct (Z_lt_le_dec (lastUpdated (this s))
              (clock (world s) (ticks (world s)) - 1000 * 60 * 60 * 24 * 5))
    as [Hs|Hfresh].
  - rewrite (getKey_stale toBase64 getPem keyId s Hs).
    rewrite refreshCache_unfold.
    destruct (checked _ _) as [err|openIdConfig].
    + cbn. repeat split; auto.
    + cbv zeta. destruct (checked _ _) as [err|body]; cbn.
      * repeat split; auto.
      * repeat split; auto.
  - rewrite getKey_fresh by exact Hfresh. cbn. repeat split; auto.
Qed.





(** X16. On a clock that never runs backwards the timestamp of the last
    refresh never moves back, however many keys are asked for. *)
Theorem getKeys_timestamp_never_moves_back
        (toBase64 : string -> string) (getPem : string -> string -> string)
        (keyIds : list string) (s : Sys) :
  monotone (clock (world s)) ->
  lastUpdated (this s)
  <= lastUpdated (this (snd (getKeys toBase64 getPem keyIds s))).
Proof.
  revert s. induction keyIds as [|keyId rest IH]; intros s Hmono.
  - cbn. lia.
  - cbn [getKeys].
    destruct (getKey_step toBase64 getPem keyId s) as [Hc [_ [_ [_ Hstep]]]].
    destruct (getKey toBase64 getPem keyId s) as [found s1].
    cbn [snd] in *.
    assert (Hmono1 : monotone (clock (world s1))) by now rewrite Hc.
    specialize (IH s1 Hmono1).
    destruct (getKeys toBase64 getPem rest s1) as [others s2].
    cbn [snd] in *.
    destruct Hstep as [[El _]|[Hs [El _]]]; [lia|].
    unfold stale in Hs.
    pose proof (Hmono (ticks (world s)) (S (ticks (world s)))
                      (Nat.le_succ_diag_r _)).
    lia.
Qed.

Lemma getKeys_timestamp_never_moves_back_witness :
  lastUpdated (this (Cases.aged Scenario.online (6 * Cases.aDay)))
  <= lastUpdated
       (this (snd (getKeys Scenario.toBase64 Scenario.getPem
                           ["abc"; "ec1"; "xyz"]
                           (Cases.aged Scenario.online (6 * Cases.aDay))))).
Proof.
  apply (getKeys_timestamp_never_moves_back
           Scenario.toBase64 Scenario.getPem ["abc"; "ec1"; "xyz"]
           (Cases.aged Scenario.online (6 * Cases.aDay))).
  intros i j Hij. unfold Cases.aged, Scenario.clockFrom. cbn [world clock]. lia.
Defined.

(** While the network refuses every request, a new object stays new. *)
Lemma getKeys_offline
      (toBase64 : string -> string) (getPem : string -> string -> string)
      (keyIds : list string) (u : string) (s : Sys) :
  this s = constructor u ->
  (forall k u', hop_fails (network (world s) k u')) ->
  Forall (fun found => found = None) (fst (getKeys toBase64 getPem keyIds s))
  /\ this (snd (getKeys toBase64 getPem keyIds s)) = constructor u.
Proof.
  revert s. induction keyIds as [|keyId rest IH]; intros s Hthis Hnet.
  - cbn. split; [constructor | exact Hthis].
  - cbn [getKeys].
    assert (H1 : this (snd (getKey toBase64 getPem keyId s)) = this s).
    { apply getKey_hop1_fails_this. intros _. apply Hnet. }
    pose proof (getKey_result toBase64 getPem keyId s) as Hres.
    destruct (getKey_step toBase64 getPem keyId s) as [_ [Hn _]].
    destruct (getKey toBase64 getPem keyId s) as [found s1].
    cbn [fst snd] in *.
    destruct (IH s1) as [Hall Hlast].
    + now rewrite H1.
    + now rewrite Hn.
    + destruct (getKeys toBase64 getPem rest s1) as [others s2].
      cbn [fst snd] in *. split; [|exact Hlast].
      constructor; [|exact Hall].
      rewrite Hres, H1, Hthis. reflexivity.
Qed.

(** X17. While the network refuses every request (transport error,
    status of 400 or more, or empty body), a new object answers [null] to
    every [getKey], stays as the constructor made it, and its [getIssuer]
    throws the not-configured error. *)
Theorem getKeys_while_network_down
        (toBase64 : string -> string) (getPem : string -> string -> string)
        (keyIds : list string) (u : string) (w : World) (tenantId : string) :
  (forall k u', hop_fails (network w k u')) ->
  Forall (fun found => found = None)
         (fst (getKeys toBase64 getPem keyIds (mkSys (constructor u) w)))
  /\ this (snd (getKeys toBase64 getPem keyIds (mkSys (constructor u) w)))
     = constructor u
  /\ getIssuer
       (this (snd (getKeys toBase64 getPem keyIds (mkSys (constructor u) w))))
       tenantId
     = inl NotConfigured.
Proof.
  intros Hnet.
  destruct (getKeys_offline toBase64 getPem keyIds u (mkSys (constructor u) w)
              eq_refl Hnet) as [Hall Hthis].
  split; [exact Hall | split; [exact Hthis|]].
  rewrite Hthis. reflexivity.
Qed.

Lemma getKeys_while_network_down_witness :
  fst (getKeys Scenario.toBase64 Scenario.getPem ["abc"; "ec1"]
               (Scenario.fresh Scenario.offline))
  = [None; None].
Proof.
  destruct (getKeys_while_network_down
              Scenario.toBase64 Scenario.getPem ["abc"; "ec1"]
              Scenario.discoveryURL (Scenario.worldOf Scenario.offline)
              "tenant1") as [Hall _].
  - intros k u'. exact I.
  - reflexivity.
Defined.
